(** * Verification of the fine-tuning script [training.py]

    The script fine-tunes a torchvision ResNet-18 on an image-folder data set.
    This development embeds its three parts and proves the properties its
    specification states about them:

    - [ModelAdapter]: [initialize_model] and [set_parameter_requires_grad];
    - [TrainingLoop]: [train_model], as a state-and-exception monad over the
      objects the loop mutates (model, optimizer, scheduler, files, metric
      writer), with the PyTorch calls it makes taken as an interface;
    - [Script]: the module-level statements ([save_obj], the data loaders and
      the call of [train_model]).

    Python floats and floating tensors are idealised as exact rationals
    ([Qc]); [print] and [time.time] have no effect on what is proved and are
    left out. *)

From Stdlib Require Import QArith Qcanon.
From stdpp Require Import base numbers list strings gmap fin_maps sorting.

Local Open Scope string_scope.
Local Open Scope list_scope.

(** ** The model adapter: [initialize_model] *)

Module ModelAdapter.

Section Adapter.

(** Tensor payloads are opaque: only the [requires_grad] flags and the
    widths of the final layer matter here. *)
Variable Tensor : Type.

Record Param := mkParam {
  data : Tensor;
  requires_grad : bool
}.

(** [nn.Linear]: the two widths and the two parameters. *)
Record Linear := mkLinear {
  in_features : nat;
  out_features : nat;
  weight : Param;
  bias : Param
}.

(** The network as [initialize_model] sees it: the parameters in front of
    the final layer, and the final layer [fc]. *)
Record Net := mkNet {
  backbone : list Param;
  fc : Linear
}.

(** [model.parameters()]: every parameter, those of [fc] included. *)
Definition parameters (model : Net) : list Param :=
  backbone model ++ [weight (fc model); bias (fc model)].

(** [parameter.requires_grad = False] *)
Definition freeze (parameter : Param) : Param :=
  {| data := data parameter; requires_grad := false |}.

(** [models.resnet18(pretrained=...)], and the random initial values
    [nn.Linear] draws for its weight and bias. *)
Variable current_model : bool -> Net.
Variable linear_init : nat -> nat -> Tensor * Tensor.

(** [nn.Linear(in, out)]: a fresh layer; fresh parameters track gradients. *)
Definition nn_Linear (n_in n_out : nat) : Linear :=
  {| in_features := n_in;
     out_features := n_out;
     weight := {| data := fst (linear_init n_in n_out); requires_grad := true |};
     bias := {| data := snd (linear_init n_in n_out); requires_grad := true |} |}.

(** [set_parameter_requires_grad]: the loop runs over [model.parameters()],
    so the old final layer is frozen with the rest. *)
Definition set_parameter_requires_grad (model : Net) (feature_extracting : bool) : Net :=
  if feature_extracting then
    {| backbone := map freeze (backbone model);
       fc := {| in_features := in_features (fc model);
                out_features := out_features (fc model);
                weight := freeze (weight (fc model));
                bias := freeze (bias (fc model)) |} |}
  else model.

(** [model.fc = layer] *)
Definition set_fc (model : Net) (layer : Linear) : Net :=
  {| backbone := backbone model; fc := layer |}.

Definition initialize_model (n_classes : nat) (feat_extract use_pretrained : bool) : Net :=
  let model := current_model use_pretrained in
  let model := set_parameter_requires_grad model feat_extract in
  let num_ftrs := in_features (fc model) in
  set_fc model (nn_Linear num_ftrs n_classes).

(** The other order, for comparison: replace the layer, then freeze. *)
Definition initialize_model_freeze_last (n_classes : nat) (feat_extract use_pretrained : bool) : Net :=
  let model := current_model use_pretrained in
  let num_ftrs := in_features (fc model) in
  let model := set_fc model (nn_Linear num_ftrs n_classes) in
  set_parameter_requires_grad model feat_extract.

End Adapter.

Arguments data {Tensor} _.
Arguments requires_grad {Tensor} _.
Arguments in_features {Tensor} _.
Arguments out_features {Tensor} _.
Arguments weight {Tensor} _.
Arguments bias {Tensor} _.
Arguments backbone {Tensor} _.
Arguments fc {Tensor} _.
Arguments parameters {Tensor} _.
Arguments freeze {Tensor} _.
Arguments nn_Linear {Tensor} _ _ _.
Arguments set_parameter_requires_grad {Tensor} _ _.
Arguments set_fc {Tensor} _ _.
Arguments initialize_model {Tensor} _ _ _ _ _.
Arguments initialize_model_freeze_last {Tensor} _ _ _ _ _.

(** The end of the script's set-up: the parameters to learn. *)

Section ParamsToLearn.

Context {Tensor : Type}.

(** The parameters whose names the script prints under "Params to learn":
    in both branches, those of [model_ft.named_parameters()] that track
    gradients. *)
Definition params_printed (model_ft : Net Tensor) : list (Param Tensor) :=
  filter (fun param => requires_grad param = true) (parameters model_ft).

(** [params_to_update] as the script builds it *)
Definition params_to_update (model_ft : Net Tensor) (feature_extract : bool)
  : list (Param Tensor) :=
  if feature_extract then params_printed model_ft else parameters model_ft.

End ParamsToLearn.

End ModelAdapter.

(** ** The training loop: [train_model] *)

Module TrainingLoop.

(** [for phase in ['train', 'val']] *)
Inductive Phase := Train | Val.

(** [phase == 'train'] *)
Definition is_train (phase : Phase) : bool :=
  match phase with Train => true | Val => false end.

(** The exceptions the loop itself can raise: [running_loss / len(...)] on an
    empty data set, and [.double()] on the Python integer [0] that
    [running_corrects] still is when no batch was seen. *)
Inductive Error := ZeroDivisionError | AttributeError.

(** The PyTorch objects and calls [train_model] uses. The loop treats them as
    black boxes, so they are an interface here; each call takes the objects
    it reads and returns the ones it mutates. *)
Class Torch := {
  Model : Type;
  Optimizer : Type;
  Scheduler : Type;
  Generator : Type;
  StateDict : Type;
  Params : Type;
  Input : Type;
  Outputs : Type;
  Loss : Type;
  (** [model.train()], [model.eval()] *)
  model_train : Model -> Model;
  model_eval : Model -> Model;
  (** [model.state_dict()], and the values of [model.parameters()] *)
  state_dict : Model -> StateDict;
  parameters : Model -> Params;
  (** [optimizer.zero_grad()] clears the gradients stored in the model *)
  zero_grad : Optimizer -> Model -> Model;
  (** [model(inputs)] under the current gradient-tracking flag; in training
      mode the call may update the model's running statistics *)
  forward : bool -> Model -> list Input -> Model * Outputs;
  (** [criterion(outputs, labels)], [loss.item()], [torch.max(outputs, 1)[1]] *)
  criterion : Outputs -> list nat -> Loss;
  loss_item : Loss -> Qc;
  max_dim1 : Outputs -> list nat;
  (** [loss.backward()] accumulates gradients in the model *)
  backward : Loss -> Model -> Model;
  (** [optimizer.step()] *)
  optimizer_step : Optimizer -> Model -> Optimizer * Model;
  (** [scheduler.get_last_lr()[0]], and [scheduler.step()], which sets the
      learning rate of the optimizer it wraps *)
  get_last_lr : Scheduler -> Qc;
  scheduler_step : Scheduler -> Optimizer -> Scheduler * Optimizer;
  (** the order in which a shuffling loader presents its data set in one
      pass, drawn from the global random generator *)
  shuffle : Generator -> list (Input * nat) -> Generator * list (Input * nat)
}.

(** What the loop relies on from the sampler: a pass presents every sample
    once. *)
Class SamplerSpec (T : Torch) : Prop :=
  shuffle_perm : forall g l, (shuffle g l).2 ≡ₚ l.

(** What PyTorch guarantees about parameter values: only [optimizer.step()]
    writes them. *)
Class ParameterFrame (T : Torch) : Prop := {
  parameters_model_train : forall m, parameters (model_train m) = parameters m;
  parameters_model_eval : forall m, parameters (model_eval m) = parameters m;
  parameters_zero_grad : forall o m, parameters (zero_grad o m) = parameters m;
  parameters_forward : forall b m xs, parameters (forward b m xs).1 = parameters m;
  parameters_backward : forall l m, parameters (backward l m) = parameters m
}.

(** [CrossEntropyLoss] is never negative. *)
Class NonNegativeLoss (T : Torch) : Prop :=
  loss_item_nonneg : forall outputs labels, (0 <= loss_item (criterion outputs labels))%Qc.

(** One element of a data set: an image and its class index. *)
Abbreviation Sample := (Input * nat)%type.

Section Loop.

Context {T : Torch}.

(** [DataLoader(dataset, batch_size=..., shuffle=True)]; the constructor
    refuses a batch size that is not positive. *)
Record DataLoader := mkDataLoader {
  dataset : list Sample;
  batch_size : positive
}.

(** A Python number that is either a plain [int] or a 0-dim integer tensor:
    [running_corrects] starts as the first and becomes the second with the
    first [+= torch.sum(...)]. *)
Inductive PyNum := PyInt (n : nat) | TensorInt (n : nat).

(** What the run leaves behind, in the order it happened. *)
Inductive Event :=
| EvModelTrain
| EvModelEval
| EvZeroGrad
| EvForward (grad_enabled : bool)
| EvBackward
| EvOptimizerStep
| EvSchedulerStep
| EvAddScalar (tag : string) (scalar_value : Qc) (global_step : nat)
| EvTorchSave (path : string) (obj : StateDict)
| EvPickleDump (path : string) (obj : gmap string nat).

(** Files the script writes. *)
Inductive File :=
| PickleFile (obj : gmap string nat)
| CheckpointFile (obj : StateDict).

(** The objects [train_model] works on (they are passed by reference and
    mutated in place), the process-wide state it touches, and its locals. *)
Record St := mkSt {
  model : Model;
  optimizer : Optimizer;
  scheduler : Scheduler;
  generator : Generator;
  grad_enabled : bool;
  files : gmap string File;
  events : list Event;
  best_model_wts : StateDict;
  best_acc : Qc;
  val_acc_history : list Qc;
  running_loss : Qc;
  running_corrects : PyNum
}.

Definition set_model (x : Model) (s : St) : St :=
  mkSt x (optimizer s) (scheduler s) (generator s) (grad_enabled s) (files s) (events s)
    (best_model_wts s) (best_acc s) (val_acc_history s) (running_loss s) (running_corrects s).
Definition set_optimizer (x : Optimizer) (s : St) : St :=
  mkSt (model s) x (scheduler s) (generator s) (grad_enabled s) (files s) (events s)
    (best_model_wts s) (best_acc s) (val_acc_history s) (running_loss s) (running_corrects s).
Definition set_scheduler (x : Scheduler) (s : St) : St :=
  mkSt (model s) (optimizer s) x (generator s) (grad_enabled s) (files s) (events s)
    (best_model_wts s) (best_acc s) (val_acc_history s) (running_loss s) (running_corrects s).
Definition set_generator (x : Generator) (s : St) : St :=
  mkSt (model s) (optimizer s) (scheduler s) x (grad_enabled s) (files s) (events s)
    (best_model_wts s) (best_acc s) (val_acc_history s) (running_loss s) (running_corrects s).
Definition set_grad_enabled (x : bool) (s : St) : St :=
  mkSt (model s) (optimizer s) (scheduler s) (generator s) x (files s) (events s)
    (best_model_wts s) (best_acc s) (val_acc_history s) (running_loss s) (running_corrects s).
Definition set_files (x : gmap string File) (s : St) : St :=
  mkSt (model s) (optimizer s) (scheduler s) (generator s) (grad_enabled s) x (events s)
    (best_model_wts s) (best_acc s) (val_acc_history s) (running_loss s) (running_corrects s).
Definition set_events (x : list Event) (s : St) : St :=
  mkSt (model s) (optimizer s) (scheduler s) (generator s) (grad_enabled s) (files s) x
    (best_model_wts s) (best_acc s) (val_acc_history s) (running_loss s) (running_corrects s).
Definition set_best_model_wts (x : StateDict) (s : St) : St :=
  mkSt (model s) (optimizer s) (scheduler s) (generator s) (grad_enabled s) (files s) (events s)
    x (best_acc s) (val_acc_history s) (running_loss s) (running_corrects s).
Definition set_best_acc (x : Qc) (s : St) : St :=
  mkSt (model s) (optimizer s) (scheduler s) (generator s) (grad_enabled s) (files s) (events s)
    (best_model_wts s) x (val_acc_history s) (running_loss s) (running_corrects s).
Definition set_val_acc_history (x : list Qc) (s : St) : St :=
  mkSt (model s) (optimizer s) (scheduler s) (generator s) (grad_enabled s) (files s) (events s)
    (best_model_wts s) (best_acc s) x (running_loss s) (running_corrects s).
Definition set_running_loss (x : Qc) (s : St) : St :=
  mkSt (model s) (optimizer s) (scheduler s) (generator s) (grad_enabled s) (files s) (events s)
    (best_model_wts s) (best_acc s) (val_acc_history s) x (running_corrects s).
Definition set_running_corrects (x : PyNum) (s : St) : St :=
  mkSt (model s) (optimizer s) (scheduler s) (generator s) (grad_enabled s) (files s) (events s)
    (best_model_wts s) (best_acc s) (val_acc_history s) (running_loss s) x.

(** *** The monad: state, and an exception that ends the run

    A raised exception keeps the state reached so far: files already written
    stay written. *)
Inductive outcome (A : Type) :=
| Returned (a : A)
| Raised (e : Error).
Global Arguments Returned {A} a.
Global Arguments Raised {A} e.

Definition M (A : Type) : Type := St -> outcome A * St.

#[global] Instance M_ret : MRet M := fun A a s => (Returned a, s).
#[global] Instance M_bind : MBind M := fun A B f c s =>
  match c s with
  | (Returned a, s') => f a s'
  | (Raised e, s') => (Raised e, s')
  end.

Definition raise {A : Type} (e : Error) : M A := fun s => (Raised e, s).
Definition gets {A : Type} (f : St -> A) : M A := fun s => (Returned (f s), s).
Definition modify (f : St -> St) : M unit := fun s => (Returned (), f s).
Definition emit (e : Event) : M unit :=
  modify (fun s => set_events (events s ++ [e]) s).

(** [for x in l: body] *)
Fixpoint for_ {A : Type} (l : list A) (body : A -> M unit) : M unit :=
  match l with
  | [] => mret ()
  | x :: l' => body x ;; for_ l' body
  end.

(** *** The calls the loop makes *)

(** [model.train()] and [model.eval()] *)
Definition do_model_train : M unit :=
  modify (fun s => set_model (model_train (model s)) s) ;; emit EvModelTrain.
Definition do_model_eval : M unit :=
  modify (fun s => set_model (model_eval (model s)) s) ;; emit EvModelEval.

(** [optimizer.zero_grad()] *)
Definition do_zero_grad : M unit :=
  modify (fun s => set_model (zero_grad (optimizer s) (model s)) s) ;; emit EvZeroGrad.

(** [with torch.set_grad_enabled(mode): body]: the flag is set on entry and
    put back on exit, also when the body raises. *)
Definition with_set_grad_enabled {A : Type} (mode : bool) (body : M A) : M A :=
  fun s =>
    let prev := grad_enabled s in
    let '(r, s') := body (set_grad_enabled mode s) in
    (r, set_grad_enabled prev s').

(** [outputs = model(inputs)]; the event records the flag the call ran under. *)
Definition call_model (inputs : list Input) : M Outputs :=
  fun s =>
    let '(m, outputs) := forward (grad_enabled s) (model s) inputs in
    (Returned outputs,
     set_events (events s ++ [EvForward (grad_enabled s)]) (set_model m s)).

(** [loss.backward()] *)
Definition do_backward (loss : Loss) : M unit :=
  modify (fun s => set_model (backward loss (model s)) s) ;; emit EvBackward.

(** [optimizer.step()] *)
Definition do_optimizer_step : M unit :=
  modify (fun s =>
    let '(o, m) := optimizer_step (optimizer s) (model s) in
    set_optimizer o (set_model m s)) ;;
  emit EvOptimizerStep.

(** [scheduler.step()] *)
Definition do_scheduler_step : M unit :=
  modify (fun s =>
    let '(sch, o) := scheduler_step (scheduler s) (optimizer s) in
    set_scheduler sch (set_optimizer o s)) ;;
  emit EvSchedulerStep.

(** [writer.add_scalar(tag, scalar_value, global_step)] *)
Definition add_scalar (tag : string) (scalar_value : Qc) (global_step : nat) : M unit :=
  emit (EvAddScalar tag scalar_value global_step).

(** [torch.save(model.state_dict(), path)] *)
Definition torch_save (path : string) : M unit :=
  sd ← gets (fun s => state_dict (model s));
  modify (fun s => set_files (<[path := CheckpointFile sd]> (files s)) s) ;;
  emit (EvTorchSave path sd).

(** [torch.sum(preds == labels.data)]: the number of positions where the two
    agree ([preds] and [labels] have one entry per sample of the batch). *)
Definition count_equal (preds labels : list nat) : nat :=
  length (filter (fun pl => pl.1 = pl.2) (zip preds labels)).

(** [x += t] for a tensor [t]: the result is a tensor whatever [x] was. *)
Definition py_iadd_tensor (x : PyNum) (t : nat) : PyNum :=
  match x with
  | PyInt n => TensorInt (n + t)
  | TensorInt n => TensorInt (n + t)
  end.

(** [x.double()]: a tensor method; a Python [int] has none. *)
Definition tensor_double (x : PyNum) : M Qc :=
  match x with
  | PyInt _ => raise AttributeError
  | TensorInt n => mret (Qc_of_Z (Z.of_nat n))
  end.

(** [x / n] for a Python float [x] and a Python int [n] *)
Definition float_truediv (x : Qc) (n : nat) : M Qc :=
  if decide (n = 0) then raise ZeroDivisionError
  else mret (x / Qc_of_Z (Z.of_nat n))%Qc.

(** The batches of one pass over a loader: the shuffled data set cut into
    consecutive runs of [batch_size], the last one possibly shorter. *)
Fixpoint batches_aux {A : Type} (fuel b : nat) (l : list A) : list (list A) :=
  match fuel, l with
  | S fuel', _ :: _ => take b l :: batches_aux fuel' b (drop b l)
  | _, _ => []
  end.
Definition batches {A : Type} (b : nat) (l : list A) : list (list A) :=
  batches_aux (length l) b l.

(** [enumerate(dataloaders[phase], 0)]: a fresh pass (the index [i] is unused) *)
Definition iterate (loader : DataLoader) : M (list (list Sample)) :=
  fun s =>
    let '(g, l) := shuffle (generator s) (dataset loader) in
    (Returned (batches (Pos.to_nat (batch_size loader)) l), set_generator g s).

Definition model_path : string := "./model/ResNet18".

(** *** [train_model] *)

(** The body of [for i, data in enumerate(dataloaders[phase], 0)] *)
Definition batch_body (phase : Phase) (data : list Sample) : M unit :=
  let inputs := data.*1 in
  let labels := data.*2 in
  do_zero_grad ;;
  '(loss, preds) ← with_set_grad_enabled (is_train phase) (
    outputs ← call_model inputs;
    let loss := criterion outputs labels in
    let preds := max_dim1 outputs in
    (if is_train phase then do_backward loss ;; do_optimizer_step else mret ()) ;;
    mret (loss, preds));
  modify (fun s =>
    set_running_loss (running_loss s + loss_item loss * Qc_of_Z (Z.of_nat (length inputs)))%Qc s) ;;
  modify (fun s =>
    set_running_corrects (py_iadd_tensor (running_corrects s) (count_equal preds labels)) s).

(** The first half of the body of [for phase in ['train', 'val']]: mode,
    accumulators, the batches, and the two averages. *)
Definition run_phase (dataloaders : Phase -> DataLoader) (phase : Phase) : M (Qc * Qc) :=
  (if is_train phase then do_model_train else do_model_eval) ;;
  modify (set_running_loss 0%Qc) ;;
  modify (set_running_corrects (PyInt 0)) ;;
  bs ← iterate (dataloaders phase);
  for_ bs (batch_body phase) ;;
  loss_sum ← gets running_loss;
  corrects ← gets running_corrects;
  epoch_loss ← float_truediv loss_sum (length (dataset (dataloaders phase)));
  corrects_double ← tensor_double corrects;
  (* the size is not 0 here: the line above has raised otherwise *)
  let epoch_acc := (corrects_double / Qc_of_Z (Z.of_nat (length (dataset (dataloaders phase)))))%Qc in
  mret (epoch_loss, epoch_acc).

(** The second half: metrics, scheduler, best-state tracker. *)
Definition end_phase (epoch : nat) (phase : Phase) (epoch_loss epoch_acc : Qc) : M unit :=
  (if is_train phase then
     lr ← gets (fun s => get_last_lr (scheduler s));
     add_scalar "lr" lr (epoch + 1) ;;
     do_scheduler_step ;;
     add_scalar "training loss" epoch_loss (epoch + 1) ;;
     add_scalar "training acc" epoch_acc (epoch + 1)
   else
     add_scalar "valid loss" epoch_loss (epoch + 1) ;;
     add_scalar "valid acc" epoch_acc (epoch + 1)) ;;
  best ← gets best_acc;
  (if negb (is_train phase) && bool_decide (best < epoch_acc)%Qc then
     modify (set_best_acc epoch_acc) ;;
     modify (fun s => set_best_model_wts (state_dict (model s)) s) ;;
     torch_save model_path
   else mret ()) ;;
  (if negb (is_train phase) then
     modify (fun s => set_val_acc_history (val_acc_history s ++ [epoch_acc]) s)
   else mret ()).

Definition phase_body (dataloaders : Phase -> DataLoader) (epoch : nat) (phase : Phase) : M unit :=
  '(epoch_loss, epoch_acc) ← run_phase dataloaders phase;
  end_phase epoch phase epoch_loss epoch_acc.

(** The body of [for epoch in range(n_epochs)] *)
Definition epoch_body (dataloaders : Phase -> DataLoader) (epoch : nat) : M unit :=
  for_ [Train; Val] (phase_body dataloaders epoch).

(** The statements in front of the loop *)
Definition init_tracker : M unit :=
  modify (set_val_acc_history []) ;;
  modify (fun s => set_best_model_wts (state_dict (model s)) s) ;;
  modify (set_best_acc 0%Qc).

(** [train_model(model, dataloaders, criterion, optimizer, scheduler, n_epochs)];
    [model], [optimizer] and [scheduler] are the objects in the state,
    [criterion] is the interface's. *)
Definition train_model (dataloaders : Phase -> DataLoader) (n_epochs : nat) : M Model :=
  init_tracker ;;
  for_ (seq 0 n_epochs) (epoch_body dataloaders) ;;
  gets model.

(** The state the run is in once [k] epochs are over (or where it stopped). *)
Definition after_epochs (dataloaders : Phase -> DataLoader) (k : nat) (s : St) : outcome unit * St :=
  (init_tracker ;; for_ (seq 0 k) (epoch_body dataloaders)) s.

(** *** Definitions used to state the results *)

Definition batch_events (phase : Phase) : list Event :=
  EvZeroGrad :: EvForward (is_train phase) ::
  (if is_train phase then [EvBackward; EvOptimizerStep] else []).

(** The state a batch leaves, field by field. *)
Definition after_batch (phase : Phase) (data : list Sample) (s : St) : St :=
  let m0 := zero_grad (optimizer s) (model s) in
  let fw := forward (is_train phase) m0 (data.*1) in
  let loss := criterion fw.2 (data.*2) in
  let preds := max_dim1 fw.2 in
  let om := if is_train phase then optimizer_step (optimizer s) (backward loss fw.1)
            else (optimizer s, fw.1) in
  mkSt om.2 om.1 (scheduler s) (generator s) (grad_enabled s) (files s)
    (events s ++ batch_events phase)
    (best_model_wts s) (best_acc s) (val_acc_history s)
    (running_loss s + loss_item loss * Qc_of_Z (Z.of_nat (length data)))%Qc
    (py_iadd_tensor (running_corrects s) (count_equal preds (data.*2))).

(** The state in which the batches of a phase start, the batches themselves,
    and the state after the last one. *)
Definition before_batches (dataloaders : Phase -> DataLoader) (phase : Phase) (s : St) : St :=
  mkSt (if is_train phase then model_train (model s) else model_eval (model s))
    (optimizer s) (scheduler s) (shuffle (generator s) (dataset (dataloaders phase))).1
    (grad_enabled s) (files s)
    (events s ++ [if is_train phase then EvModelTrain else EvModelEval])
    (best_model_wts s) (best_acc s) (val_acc_history s) 0%Qc (PyInt 0).

Definition phase_batches (dataloaders : Phase -> DataLoader) (phase : Phase) (s : St)
  : list (list Sample) :=
  batches (Pos.to_nat (batch_size (dataloaders phase)))
    (shuffle (generator s) (dataset (dataloaders phase))).2.

Definition after_batches (dataloaders : Phase -> DataLoader) (phase : Phase) (s : St) : St :=
  foldl (fun s' data => after_batch phase data s')
    (before_batches dataloaders phase s) (phase_batches dataloaders phase s).

(** The state the end of a phase leaves. *)
Definition after_end_phase (epoch : nat) (phase : Phase) (epoch_loss epoch_acc : Qc) (s : St) : St :=
  match phase with
  | Train =>
      let so := scheduler_step (scheduler s) (optimizer s) in
      mkSt (model s) so.2 so.1 (generator s) (grad_enabled s) (files s)
        (events s ++ [EvAddScalar "lr" (get_last_lr (scheduler s)) (epoch + 1);
                      EvSchedulerStep;
                      EvAddScalar "training loss" epoch_loss (epoch + 1);
                      EvAddScalar "training acc" epoch_acc (epoch + 1)])
        (best_model_wts s) (best_acc s) (val_acc_history s)
        (running_loss s) (running_corrects s)
  | Val =>
      if bool_decide (best_acc s < epoch_acc)%Qc then
        mkSt (model s) (optimizer s) (scheduler s) (generator s) (grad_enabled s)
          (<[model_path := CheckpointFile (state_dict (model s))]> (files s))
          (events s ++ [EvAddScalar "valid loss" epoch_loss (epoch + 1);
                        EvAddScalar "valid acc" epoch_acc (epoch + 1);
                        EvTorchSave model_path (state_dict (model s))])
          (state_dict (model s)) epoch_acc (val_acc_history s ++ [epoch_acc])
          (running_loss s) (running_corrects s)
      else
        mkSt (model s) (optimizer s) (scheduler s) (generator s) (grad_enabled s)
          (files s)
          (events s ++ [EvAddScalar "valid loss" epoch_loss (epoch + 1);
                        EvAddScalar "valid acc" epoch_acc (epoch + 1)])
          (best_model_wts s) (best_acc s) (val_acc_history s ++ [epoch_acc])
          (running_loss s) (running_corrects s)
  end.

(** The checkpoints written, oldest first. *)
Definition saves (evs : list Event) : list StateDict :=
  omap (fun e => match e with EvTorchSave _ sd => Some sd | _ => None end) evs.

(** What one epoch does to the best-state tracker and to the disk: nothing
    (also when the epoch raises before its validation phase is over), or one
    more validation accuracy, with a checkpoint exactly when it beats the
    best so far. *)
Inductive tracker_step (s : St) : outcome unit -> St -> Prop :=
| tracker_raised e s' :
    files s' = files s -> best_model_wts s' = best_model_wts s ->
    best_acc s' = best_acc s -> val_acc_history s' = val_acc_history s ->
    saves (events s') = saves (events s) ->
    tracker_step s (Raised e) s'
| tracker_improved acc s' :
    (best_acc s < acc)%Qc ->
    files s' = <[model_path := CheckpointFile (state_dict (model s'))]> (files s) ->
    best_model_wts s' = state_dict (model s') ->
    best_acc s' = acc -> val_acc_history s' = val_acc_history s ++ [acc] ->
    saves (events s') = saves (events s) ++ [state_dict (model s')] ->
    tracker_step s (Returned ()) s'
| tracker_kept acc s' :
    (acc <= best_acc s)%Qc ->
    files s' = files s -> best_model_wts s' = best_model_wts s ->
    best_acc s' = best_acc s -> val_acc_history s' = val_acc_history s ++ [acc] ->
    saves (events s') = saves (events s) ->
    tracker_step s (Returned ()) s'.

(** The invariant of the epoch loop. *)
Definition tracker_inv (dataloaders : Phase -> DataLoader) (s0 : St) (k : nat)
    (r : outcome unit) (s : St) : Prop :=
  Forall (fun a => (a <= best_acc s)%Qc) (val_acc_history s) /\
  length (val_acc_history s) <= k /\
  (r = Returned () -> length (val_acc_history s) = k) /\
  ((best_acc s = 0%Qc /\ files s = files s0 /\ saves (events s) = saves (events s0)) \/
   (exists e, e < k /\
      val_acc_history s !! e = Some (best_acc s) /\
      files s !! model_path
      = Some (CheckpointFile (state_dict (model (after_epochs dataloaders (S e) s0).2))) /\
      last (saves (events s))
      = Some (state_dict (model (after_epochs dataloaders (S e) s0).2)))).

(** The learning rates logged and the scheduler steps taken, in order. *)
Definition lr_and_steps (evs : list Event) : list (Qc + unit) :=
  omap (fun e => match e with
                 | EvAddScalar "lr" v _ => Some (inl v)
                 | EvSchedulerStep => Some (inr ())
                 | _ => None
                 end) evs.

(** The integer a [running_corrects] holds. *)
Definition corrects_value (x : PyNum) : nat :=
  match x with PyInt n => n | TensorInt n => n end.

Definition is_tensor (x : PyNum) : bool :=
  match x with PyInt _ => false | TensorInt _ => true end.

(** Two states that differ at most in the best-state tracker, the files and
    the log. *)
Definition agree (s1 s2 : St) : Prop :=
  model s1 = model s2 /\ optimizer s1 = optimizer s2 /\
  scheduler s1 = scheduler s2 /\ generator s1 = generator s2 /\
  grad_enabled s1 = grad_enabled s2 /\
  running_loss s1 = running_loss s2 /\ running_corrects s1 = running_corrects s2.

Definition is_pickle_dump (e : Event) : bool :=
  match e with EvPickleDump _ _ => true | _ => false end.

(** [s'] comes from [s] by training alone: the log grew by events that are
    not [pickle.dump]s, and no file but the checkpoint was written. *)
Definition training_only (s s' : St) : Prop :=
  (exists evs, events s' = events s ++ evs /\
               Forall (fun e => is_pickle_dump e = false) evs) /\
  (forall p, p <> model_path -> files s' !! p = files s !! p).

(** *** More observations of the log *)

(** What the end of a phase appends to the log. *)
Definition end_phase_events (epoch : nat) (phase : Phase) (epoch_loss epoch_acc : Qc) (s : St)
  : list Event :=
  match phase with
  | Train =>
      [EvAddScalar "lr" (get_last_lr (scheduler s)) (epoch + 1);
       EvSchedulerStep;
       EvAddScalar "training loss" epoch_loss (epoch + 1);
       EvAddScalar "training acc" epoch_acc (epoch + 1)]
  | Val =>
      [EvAddScalar "valid loss" epoch_loss (epoch + 1);
       EvAddScalar "valid acc" epoch_acc (epoch + 1)]
      ++ (if bool_decide (best_acc s < epoch_acc)%Qc
          then [EvTorchSave model_path (state_dict (model s))] else [])
  end.


(** The tags [train_model] passes to [writer.add_scalar]. *)
Definition scalar_tags : list string :=
  ["lr"; "training loss"; "training acc"; "valid loss"; "valid acc"].

(** The steps, and the values, logged under one tag, in order. *)
Definition scalar_steps (tag : string) (evs : list Event) : list nat :=
  omap (fun e => match e with
                 | EvAddScalar t _ k => if decide (t = tag) then Some k else None
                 | _ => None
                 end) evs.


(** The mode switches logged: [true] for [model.train()], [false] for
    [model.eval()]. *)
Definition mode_switches (evs : list Event) : list bool :=
  omap (fun e => match e with
                 | EvModelTrain => Some true
                 | EvModelEval => Some false
                 | _ => None
                 end) evs.


(** The optimizer steps logged. *)
Definition optimizer_steps (evs : list Event) : nat :=
  length (omap (fun e => match e with EvOptimizerStep => Some () | _ => None end) evs).

End Loop.

End TrainingLoop.

(** ** The module-level statements of the script *)

Module Script.

Import TrainingLoop.

Definition dictionary_name : string := "dict".
Definition num_classes : nat := 6.
Definition feature_extract : bool := false.
Definition batch_size : positive := 256.
Definition num_epochs : nat := 500.

(** The order Python's [sorted] puts directory names in. *)
Definition string_le (a b : string) : Prop := String.leb a b.

#[global] Instance string_le_dec : RelDecision string_le.
Proof. intros a b. unfold string_le. apply _. Defined.

(** Modelled from the spec: [datasets.ImageFolder] belongs to torchvision
    and is not in the repository. Following section 6 of the specification,
    the class set is the set of subdirectory names of the split's directory,
    and alphabetical order assigns the indices. *)
Definition classes (dirs : gset string) : list string :=
  merge_sort string_le (elements dirs).

(** Modelled from the spec: [ImageFolder.class_to_idx], the label map
    [{cls_name: i for i, cls_name in enumerate(classes)}]. *)
Definition class_to_idx (dirs : gset string) : gmap string nat :=
  list_to_map (zip (classes dirs) (seq 0 (length (classes dirs)))).

Section Main.

Context {T : Torch}.

(** [datasets.ImageFolder(os.path.join(dir_path, x), data_transforms[x])],
    as read from the directory: its class subdirectories and its samples. *)
Record ImageFolder := mkImageFolder {
  class_dirs : gset string;
  samples : list Sample
}.

(** [save_obj(obj, dict_name)] *)
Definition save_obj (obj : gmap string nat) (dict_name : string) : M unit :=
  let path := (dict_name ++ ".pkl")%string in
  modify (fun s => set_files (<[path := PickleFile obj]> (files s)) s) ;;
  emit (EvPickleDump path obj).

(** [dataloaders_dict] *)
Definition dataloaders_dict (image_datasets : Phase -> ImageFolder) (x : Phase) : DataLoader :=
  {| dataset := samples (image_datasets x); TrainingLoop.batch_size := batch_size |}.

(** The statements from [save_obj(...)] to the call of [train_model]. The
    state the script starts these in holds [model_ft], [optimizer_ft] and
    [exp_lr_scheduler]. *)
Definition main (image_datasets : Phase -> ImageFolder) : M Model :=
  save_obj (class_to_idx (class_dirs (image_datasets Val))) dictionary_name ;;
  train_model (dataloaders_dict image_datasets) num_epochs.

End Main.

End Script.

(** ** A small instance of the interface

    A one-weight "network" that classifies a number by the parity of its sum
    with the weight. It makes the loop executable, for the examples below. *)

Module Toy.

Import TrainingLoop.

#[global] Instance toy : Torch := {|
  Model := nat;
  Optimizer := unit;
  Scheduler := nat;
  Generator := unit;
  StateDict := nat;
  Params := nat;
  Input := nat;
  Outputs := list nat;
  Loss := nat;
  model_train := fun m => m;
  model_eval := fun m => m;
  state_dict := fun m => m;
  parameters := fun m => m;
  zero_grad := fun _ m => m;
  forward := fun _ m xs => (m, map (fun x => (x + m) mod 2) xs);
  criterion := fun outputs labels =>
    length (filter (fun pl => pl.1 <> pl.2) (zip outputs labels));
  loss_item := fun l => Qc_of_Z (Z.of_nat l);
  max_dim1 := fun outputs => outputs;
  backward := fun _ m => m;
  optimizer_step := fun o m => (o, S m);
  get_last_lr := fun n => (1 / Qc_of_Z (Z.of_nat (S n)))%Qc;
  scheduler_step := fun n o => (S n, o);
  shuffle := fun g l => (g, reverse l)
|}.

(** Images [0 .. n-1], each labelled with its parity: two classes. *)
Definition parity_dataset (n : nat) : list Sample :=
  map (fun x => (x, x mod 2)) (seq 0 n).

(** The scenario of section 8 of the specification: 10 training images,
    4 validation images, batch size 2. *)
Definition scenario_loaders (phase : Phase) : DataLoader :=
  match phase with
  | Train => {| dataset := parity_dataset 10; batch_size := 2 |}
  | Val => {| dataset := parity_dataset 4; batch_size := 2 |}
  end.

(** A split with no image. *)
Definition empty_val_loaders (phase : Phase) : DataLoader :=
  match phase with
  | Train => {| dataset := parity_dataset 10; batch_size := 2 |}
  | Val => {| dataset := []; batch_size := 2 |}
  end.

(** A fresh process: weight [w], nothing on disk, nothing logged. *)
Definition start (w : nat) : St :=
  {| model := w; optimizer := (); scheduler := 0; generator := ();
     grad_enabled := true; files := ∅; events := [];
     best_model_wts := 0; best_acc := 0%Qc; val_acc_history := [];
     running_loss := 0%Qc; running_corrects := PyInt 0 |}.

(** The same instance with a sampler that yields nothing, as a loader that
    drops an incomplete last batch does over a split smaller than a batch. *)
Definition silent : Torch := {|
  Model := nat;
  Optimizer := unit;
  Scheduler := nat;
  Generator := unit;
  StateDict := nat;
  Params := nat;
  Input := nat;
  Outputs := list nat;
  Loss := nat;
  model_train := fun m => m;
  model_eval := fun m => m;
  state_dict := fun m => m;
  parameters := fun m => m;
  zero_grad := fun _ m => m;
  forward := fun _ m xs => (m, map (fun x => (x + m) mod 2) xs);
  criterion := fun outputs labels =>
    length (filter (fun pl => pl.1 <> pl.2) (zip outputs labels));
  loss_item := fun l => Qc_of_Z (Z.of_nat l);
  max_dim1 := fun outputs => outputs;
  backward := fun _ m => m;
  optimizer_step := fun o m => (o, S m);
  get_last_lr := fun n => (1 / Qc_of_Z (Z.of_nat (S n)))%Qc;
  scheduler_step := fun n o => (S n, o);
  shuffle := fun g _ => (g, [])
|}.

(** Ten images behind that sampler, and a fresh process. *)
Definition silent_loaders (phase : Phase) : @DataLoader silent :=
  @mkDataLoader silent (map (fun x => (x, x mod 2)) (seq 0 10)) 2.

Definition silent_start : @St silent :=
  @mkSt silent 0 () 0 () true ∅ [] 0 0%Qc [] 0%Qc (PyInt 0).

End Toy.

(** * Results *)

(** ** The model adapter *)

Section AdapterFacts.

Import ModelAdapter.
Variable Tensor : Type.
Variable current_model : bool -> Net Tensor.
Variable linear_init : nat -> nat -> Tensor * Tensor.

Lemma set_parameter_requires_grad_flags (model : Net Tensor) (fe : bool) :
  map (requires_grad) (parameters (set_parameter_requires_grad model fe))
  = map (fun p => if fe then false else requires_grad p) (parameters model).
Proof.
  destruct fe; simpl.
  - unfold parameters; simpl. rewrite !map_app, map_map. done.
  - done.
Qed.

(** C7. [initialize_model] freezes first and replaces the final layer
    second: when [feat_extract] is set, every parameter the loaded network
    had is frozen, the old final layer included (and none is touched when it
    is not set); the layer put in afterwards is fresh, so it tracks
    gradients in both cases; its output width is [n_classes] and its input
    width is the one read from the final layer it replaces. Freezing after
    the replacement would have frozen the new layer too. *)
Theorem initialize_model_freezes_before_replacing
    (n_classes : nat) (feat_extract use_pretrained : bool) :
  let loaded := current_model use_pretrained in
  let frozen := set_parameter_requires_grad loaded feat_extract in
  let model := initialize_model current_model linear_init
                 n_classes feat_extract use_pretrained in
  model = set_fc frozen (nn_Linear linear_init (in_features (fc loaded)) n_classes) /\
  map (requires_grad) (parameters frozen)
  = map (fun p => if feat_extract then false else requires_grad p)
      (parameters loaded) /\
  map (requires_grad) (backbone model)
  = map (fun p => if feat_extract then false else requires_grad p)
      (backbone loaded) /\
  map (data) (backbone model) = map (data) (backbone loaded) /\
  requires_grad (weight (fc model)) = true /\
  requires_grad (bias (fc model)) = true /\
  out_features (fc model) = n_classes /\
  in_features (fc model) = in_features (fc loaded) /\
  requires_grad (weight (fc
    (initialize_model_freeze_last current_model linear_init
       n_classes feat_extract use_pretrained)))
  = negb feat_extract.
Proof.
  simpl. unfold initialize_model.
  split; [by destruct feat_extract|].
  split; [apply set_parameter_requires_grad_flags|].
  split; [destruct feat_extract; simpl; [by rewrite map_map|done]|].
  split; [destruct feat_extract; simpl; [by rewrite map_map|done]|].
  repeat split; by destruct feat_extract.
Qed.
End AdapterFacts.

Import TrainingLoop.

(** ** The loop, step by step *)

Section LoopFacts.

Context {T : Torch}.

Lemma bind_run {A B : Type} (c : M A) (f : A -> M B) (s : St) :
  (c ≫= f) s = match c s with
               | (Returned a, s') => f a s'
               | (Raised e, s') => (Raised e, s')
               end.
Proof. reflexivity. Qed.

Lemma for_app {A : Type} (l1 l2 : list A) (body : A -> M unit) (s : St) :
  for_ (l1 ++ l2) body s = (for_ l1 body ;; for_ l2 body) s.
Proof.
  revert s. induction l1 as [|x l1 IH]; intros s; simpl.
  - reflexivity.
  - rewrite !bind_run. destruct (body x s) as [[[]|e] s1]; [|done].
    rewrite IH. reflexivity.
Qed.

Lemma batch_body_run (phase : Phase) (data : list Sample) (s : St) :
  batch_body phase data s = (Returned (), after_batch phase data s).
Proof.
  unfold batch_body, after_batch, batch_events.
  destruct phase; simpl.
  - unfold mbind, M_bind, with_set_grad_enabled, call_model, do_zero_grad,
      do_backward, do_optimizer_step, modify, emit, mret, M_ret; simpl.
    rewrite length_fmap.
    destruct (forward true _ _) as [m1 outputs]; simpl.
    destruct (optimizer_step _ _) as [o m2]; simpl.
    rewrite <- !app_assoc. reflexivity.
  - unfold mbind, M_bind, with_set_grad_enabled, call_model, do_zero_grad,
      modify, emit, mret, M_ret; simpl.
    rewrite length_fmap.
    destruct (forward false _ _) as [m1 outputs]; simpl.
    rewrite <- !app_assoc. reflexivity.
Qed.

Lemma for_batches_run (phase : Phase) (bs : list (list Sample)) (s : St) :
  for_ bs (batch_body phase) s
  = (Returned (), foldl (fun s' data => after_batch phase data s') s bs).
Proof.
  revert s. induction bs as [|data bs IH]; intros s; simpl; [done|].
  rewrite bind_run, batch_body_run. apply IH.
Qed.

Lemma run_phase_run (dataloaders : Phase -> DataLoader) (phase : Phase) (s : St) :
  run_phase dataloaders phase s =
  let s2 := after_batches dataloaders phase s in
  let n := length (dataset (dataloaders phase)) in
  if decide (n = 0) then (Raised ZeroDivisionError, s2)
  else match running_corrects s2 with
       | PyInt _ => (Raised AttributeError, s2)
       | TensorInt c =>
           (Returned ((running_loss s2 / Qc_of_Z (Z.of_nat n))%Qc,
                      (Qc_of_Z (Z.of_nat c) / Qc_of_Z (Z.of_nat n))%Qc), s2)
       end.
Proof.
  unfold run_phase, after_batches, phase_batches, before_batches.
  rewrite bind_run.
  assert (Hmode :
    (if is_train phase then do_model_train else do_model_eval) s
    = (Returned (),
       set_events (events s ++ [if is_train phase then EvModelTrain else EvModelEval])
         (set_model (if is_train phase then model_train (model s)
                     else model_eval (model s)) s))).
  { by destruct phase. }
  rewrite Hmode. clear Hmode.
  do 3 (rewrite bind_run; simpl).
  unfold iterate at 1; simpl.
  destruct (shuffle (generator s) (dataset (dataloaders phase))) as [g l] eqn:Hsh; simpl.
  rewrite bind_run, for_batches_run.
  set (s2 := foldl _ _ _).
  rewrite bind_run; simpl. rewrite bind_run; simpl.
  rewrite bind_run. unfold float_truediv.
  destruct (decide (length (dataset (dataloaders phase)) = 0)) as [Hn|Hn]; [done|].
  simpl. rewrite bind_run. unfold tensor_double.
  destruct (running_corrects s2); done.
Qed.

Lemma end_phase_run (epoch : nat) (phase : Phase) (epoch_loss epoch_acc : Qc) (s : St) :
  end_phase epoch phase epoch_loss epoch_acc s
  = (Returned (), after_end_phase epoch phase epoch_loss epoch_acc s).
Proof.
  unfold end_phase, after_end_phase. destruct phase; simpl.
  - unfold mbind, M_bind, add_scalar, do_scheduler_step, gets, modify, emit,
      mret, M_ret; simpl.
    destruct (scheduler_step _ _) as [sch o]; simpl.
    rewrite <- !app_assoc. reflexivity.
  - unfold mbind, M_bind, add_scalar, torch_save, gets, modify, emit,
      mret, M_ret; simpl.
    destruct (bool_decide _); simpl; rewrite <- !app_assoc; reflexivity.
Qed.

Lemma phase_body_run (dataloaders : Phase -> DataLoader) (epoch : nat) (phase : Phase) (s : St) :
  phase_body dataloaders epoch phase s =
  match run_phase dataloaders phase s with
  | (Returned (epoch_loss, epoch_acc), s2) =>
      (Returned (), after_end_phase epoch phase epoch_loss epoch_acc s2)
  | (Raised e, s2) => (Raised e, s2)
  end.
Proof.
  unfold phase_body. rewrite bind_run.
  destruct (run_phase dataloaders phase s) as [[[l a]|e] s2]; [|done].
  apply end_phase_run.
Qed.

Lemma epoch_body_run (dataloaders : Phase -> DataLoader) (epoch : nat) (s : St) :
  epoch_body dataloaders epoch s =
  match phase_body dataloaders epoch Train s with
  | (Returned _, s1) => phase_body dataloaders epoch Val s1
  | (Raised e, s1) => (Raised e, s1)
  end.
Proof.
  unfold epoch_body; simpl. rewrite bind_run.
  destruct (phase_body dataloaders epoch Train s) as [[[]|e] s1]; [|done].
  rewrite bind_run.
  destruct (phase_body dataloaders epoch Val s1) as [[[]|e] s2]; done.
Qed.

Lemma for_seq_S (body : nat -> M unit) (a k : nat) (s : St) :
  for_ (seq a (S k)) body s =
  match for_ (seq a k) body s with
  | (Returned _, s1) => body (a + k) s1
  | (Raised e, s1) => (Raised e, s1)
  end.
Proof.
  rewrite seq_S, for_app, bind_run.
  destruct (for_ (seq a k) body s) as [[[]|e] s1]; [|done].
  simpl. rewrite bind_run.
  destruct (body (a + k) s1) as [[[]|e] s2]; done.
Qed.

Lemma after_epochs_S (dataloaders : Phase -> DataLoader) (k : nat) (s0 : St) :
  after_epochs dataloaders (S k) s0 =
  match after_epochs dataloaders k s0 with
  | (Returned _, s) => epoch_body dataloaders k s
  | (Raised e, s) => (Raised e, s)
  end.
Proof.
  unfold after_epochs. rewrite !bind_run.
  destruct (init_tracker s0) as [[[]|e] s1]; [|done].
  apply (for_seq_S _ 0 k).
Qed.

Lemma train_model_run (dataloaders : Phase -> DataLoader) (n_epochs : nat) (s0 : St) :
  train_model dataloaders n_epochs s0 =
  match after_epochs dataloaders n_epochs s0 with
  | (Returned _, s) => (Returned (model s), s)
  | (Raised e, s) => (Raised e, s)
  end.
Proof.
  unfold train_model, after_epochs. rewrite !bind_run.
  destruct (init_tracker s0) as [[[]|e] s1]; [|done].
  rewrite bind_run.
  destruct (for_ (seq 0 n_epochs) (epoch_body dataloaders) s1) as [[[]|e] s2]; done.
Qed.

(** What the batches of a phase leave alone, and what they log. *)
Lemma fold_batches_frame (phase : Phase) (bs : list (list Sample)) (s : St) :
  let s' := foldl (fun s' data => after_batch phase data s') s bs in
  scheduler s' = scheduler s /\ generator s' = generator s /\
  grad_enabled s' = grad_enabled s /\ files s' = files s /\
  best_model_wts s' = best_model_wts s /\ best_acc s' = best_acc s /\
  val_acc_history s' = val_acc_history s /\
  events s' = events s ++ concat (replicate (length bs) (batch_events phase)).
Proof.
  revert s. induction bs as [|data bs IH]; intros s; simpl.
  - rewrite app_nil_r. done.
  - specialize (IH (after_batch phase data s)). simpl in IH.
    destruct IH as (-> & -> & -> & -> & -> & -> & -> & ->). simpl.
    rewrite <- app_assoc. done.
Qed.

Lemma after_batches_frame (dataloaders : Phase -> DataLoader) (phase : Phase) (s : St) :
  let s' := after_batches dataloaders phase s in
  scheduler s' = scheduler s /\ grad_enabled s' = grad_enabled s /\
  files s' = files s /\ best_model_wts s' = best_model_wts s /\
  best_acc s' = best_acc s /\ val_acc_history s' = val_acc_history s /\
  events s' = events s
    ++ (if is_train phase then EvModelTrain else EvModelEval)
    :: concat (replicate (length (phase_batches dataloaders phase s)) (batch_events phase)).
Proof.
  unfold after_batches.
  destruct (fold_batches_frame phase (phase_batches dataloaders phase s)
              (before_batches dataloaders phase s))
    as (-> & _ & -> & -> & -> & -> & -> & ->). simpl.
  rewrite <- app_assoc. done.
Qed.

Lemma saves_app (l1 l2 : list Event) : saves (l1 ++ l2) = saves l1 ++ saves l2.
Proof. apply omap_app. Qed.

Lemma saves_batches (phase : Phase) (n : nat) :
  saves (concat (replicate n (batch_events phase))) = [].
Proof.
  induction n as [|n IH]; simpl; [done|].
  rewrite saves_app, IH. by destruct phase.
Qed.

Lemma run_phase_state (dataloaders : Phase -> DataLoader) (phase : Phase) (s : St) :
  (run_phase dataloaders phase s).2 = after_batches dataloaders phase s.
Proof.
  rewrite run_phase_run. simpl.
  destruct (decide _); [done|]. by destruct (running_corrects _).
Qed.

Lemma after_batches_saves (dataloaders : Phase -> DataLoader) (phase : Phase) (s : St) :
  saves (events (after_batches dataloaders phase s)) = saves (events s).
Proof.
  destruct (after_batches_frame dataloaders phase s) as (_ & _ & _ & _ & _ & _ & ->).
  rewrite saves_app. change (?x :: ?l) with ([x] ++ l).
  rewrite saves_app, saves_batches, !app_nil_r.
  destruct phase; simpl; by rewrite app_nil_r.
Qed.

(** The train phase leaves the tracker and the disk alone. *)
Lemma phase_body_train_tracker (dataloaders : Phase -> DataLoader) (epoch : nat) (s : St) :
  let s' := (phase_body dataloaders epoch Train s).2 in
  files s' = files s /\ best_model_wts s' = best_model_wts s /\
  best_acc s' = best_acc s /\ val_acc_history s' = val_acc_history s /\
  saves (events s') = saves (events s).
Proof.
  rewrite phase_body_run.
  pose proof (run_phase_state dataloaders Train s) as Hst.
  pose proof (after_batches_saves dataloaders Train s) as Hsv.
  destruct (after_batches_frame dataloaders Train s) as (_ & _ & Hf & Hw & Ha & Hh & _).
  destruct (run_phase dataloaders Train s) as [[[l a]|e] s2]; simpl in *; subst s2.
  - rewrite saves_app, Hsv. simpl. rewrite app_nil_r. done.
  - done.
Qed.

Lemma phase_body_val_tracker (dataloaders : Phase -> DataLoader) (epoch : nat) (s : St) :
  tracker_step s (phase_body dataloaders epoch Val s).1 (phase_body dataloaders epoch Val s).2.
Proof.
  rewrite phase_body_run.
  pose proof (run_phase_state dataloaders Val s) as Hst.
  pose proof (after_batches_saves dataloaders Val s) as Hsv.
  destruct (after_batches_frame dataloaders Val s) as (_ & _ & Hf & Hw & Ha & Hh & _).
  destruct (run_phase dataloaders Val s) as [[[l a]|e] s2]; simpl in *; subst s2.
  - unfold after_end_phase. case_bool_decide as Hlt.
    + apply (tracker_improved _ a); simpl; try congruence.
      rewrite saves_app, Hsv. done.
    + apply (tracker_kept _ a); simpl; try congruence.
      * rewrite <- Ha. by apply Qcnot_lt_le.
      * rewrite saves_app, Hsv. simpl. by rewrite app_nil_r.
  - by apply tracker_raised.
Qed.

Lemma epoch_body_tracker (dataloaders : Phase -> DataLoader) (epoch : nat) (s : St) :
  tracker_step s (epoch_body dataloaders epoch s).1 (epoch_body dataloaders epoch s).2.
Proof.
  rewrite epoch_body_run.
  destruct (phase_body_train_tracker dataloaders epoch s) as (Hf & Hw & Ha & Hh & Hs).
  destruct (phase_body dataloaders epoch Train s) as [[[]|e] s1]; simpl in *.
  - pose proof (phase_body_val_tracker dataloaders epoch s1) as Hv.
    destruct Hv as [e s' ? ? ? ? ?|acc s' ? ? ? ? ? ?|acc s' ? ? ? ? ? ?].
    + apply tracker_raised; congruence.
    + apply (tracker_improved _ acc); congruence.
    + apply (tracker_kept _ acc); congruence.
  - by apply tracker_raised.
Qed.
End LoopFacts.

(** ** The best-state tracker *)

Section TrackerFacts.

Context {T : Torch}.

Lemma after_epochs_0 (dataloaders : Phase -> DataLoader) (s0 : St) :
  after_epochs dataloaders 0 s0
  = (Returned (),
     set_best_acc 0%Qc (set_best_model_wts (state_dict (model s0)) (set_val_acc_history [] s0))).
Proof. reflexivity. Qed.

Lemma tracker_step_best_acc (s s' : St) (r : outcome unit) :
  tracker_step s r s' -> (best_acc s <= best_acc s')%Qc.
Proof.
  intros [e s1 _ _ -> _ _|acc s1 Hlt _ _ -> _ _|acc s1 _ _ _ -> _ _].
  - apply Qcle_refl.
  - by apply Qclt_le_weak.
  - apply Qcle_refl.
Qed.

Lemma after_epochs_best_acc_step (dataloaders : Phase -> DataLoader) (k : nat) (s0 : St) :
  (best_acc (after_epochs dataloaders k s0).2
   <= best_acc (after_epochs dataloaders (S k) s0).2)%Qc.
Proof.
  rewrite after_epochs_S.
  destruct (after_epochs dataloaders k s0) as [[[]|e] s]; simpl.
  - eapply tracker_step_best_acc, epoch_body_tracker.
  - apply Qcle_refl.
Qed.

Lemma after_epochs_best_acc_mono (dataloaders : Phase -> DataLoader) (j k : nat) (s0 : St) :
  j <= k ->
  (best_acc (after_epochs dataloaders j s0).2
   <= best_acc (after_epochs dataloaders k s0).2)%Qc.
Proof.
  induction 1 as [|k _ IH].
  - apply Qcle_refl.
  - eapply Qcle_trans; [apply IH|]. apply after_epochs_best_acc_step.
Qed.

Lemma after_epochs_tracker_inv (dataloaders : Phase -> DataLoader) (s0 : St) (k : nat) :
  tracker_inv dataloaders s0 k (after_epochs dataloaders k s0).1 (after_epochs dataloaders k s0).2.
Proof.
  induction k as [|k IH].
  - rewrite after_epochs_0. unfold tracker_inv; simpl.
    split; [constructor|]. split; [lia|]. split; [done|]. by left.
  - pose proof (after_epochs_S dataloaders k s0) as HS.
    destruct (after_epochs dataloaders k s0) as [[[]|e] s] eqn:Hk; simpl in IH.
    + pose proof (epoch_body_tracker dataloaders k s) as Hstep.
      rewrite <- HS in Hstep.
      destruct IH as (Hall & Hlen & Hlen' & Hdisk).
      specialize (Hlen' eq_refl).
      destruct (after_epochs dataloaders (S k) s0) as [o sk] eqn:HSk.
      simpl in Hstep.
      destruct Hstep as [e s' Hf Hw Ha Hh Hs|acc s' Hlt Hf Hw Ha Hh Hs|acc s' Hle Hf Hw Ha Hh Hs].
      * unfold tracker_inv; simpl. rewrite Hh, Ha, Hf, Hs.
        split; [done|]. split; [lia|]. split; [done|].
        destruct Hdisk as [?|(e' & ? & ? & ? & ?)]; [by left|].
        right. exists e'. repeat split; [lia|done..].
      * unfold tracker_inv; simpl. rewrite Hh, Ha.
        split.
        { apply Forall_app. split.
          - eapply Forall_impl; [apply Hall|]. simpl. intros a Ha'.
            eapply Qcle_trans; [apply Ha'|]. by apply Qclt_le_weak.
          - constructor; [apply Qcle_refl|constructor]. }
        rewrite length_app. simpl.
        split; [lia|]. split; [lia|].
        right. exists k. rewrite HSk. simpl. split; [lia|].
        split; [rewrite <- Hlen'; apply list_lookup_middle; done|].
        simpl.
        split; [rewrite Hf; apply lookup_insert_eq|].
        rewrite Hs. apply last_snoc.
      * unfold tracker_inv; simpl. rewrite Hh, Ha, Hf, Hs.
        split.
        { apply Forall_app. split; [done|]. constructor; [done|constructor]. }
        rewrite length_app. simpl.
        split; [lia|]. split; [lia|].
        destruct Hdisk as [?|(e' & ? & Hlk & ? & ?)]; [by left|].
        right. exists e'. split; [lia|].
        split; [|done].
        apply lookup_app_l_Some. done.
    + rewrite HS. simpl.
      destruct IH as (Hall & Hlen & Hlen' & Hdisk).
      split; [done|]. split; [lia|]. split; [done|].
      destruct Hdisk as [?|(e' & ? & ? & ? & ?)]; [by left|].
      right. exists e'. repeat split; [lia|done..].
Qed.

(** C1. In a run of [train_model], the tracker's best accuracy never
    decreases from one epoch to a later one; it bounds every validation
    accuracy seen so far; and either no validation accuracy has beaten the
    initial 0 and the run has written nothing, or the checkpoint on disk
    (the last one written) holds the weights the model had at the end of an
    epoch whose validation accuracy is that best accuracy. *)
Theorem best_state_tracker_invariant
    (dataloaders : Phase -> DataLoader) (s0 : St) (j k : nat) :
  j <= k ->
  let sj := (after_epochs dataloaders j s0).2 in
  let s := (after_epochs dataloaders k s0).2 in
  (best_acc sj <= best_acc s)%Qc /\
  Forall (fun a => (a <= best_acc s)%Qc) (val_acc_history s) /\
  ((best_acc s = 0%Qc /\ files s = files s0 /\ saves (events s) = saves (events s0)) \/
   (exists e, e < k /\
      val_acc_history s !! e = Some (best_acc s) /\
      files s !! model_path
      = Some (CheckpointFile (state_dict (model (after_epochs dataloaders (S e) s0).2))) /\
      last (saves (events s))
      = Some (state_dict (model (after_epochs dataloaders (S e) s0).2)))).
Proof.
  intros Hjk. simpl.
  split; [by apply after_epochs_best_acc_mono|].
  destruct (after_epochs_tracker_inv dataloaders s0 k) as (Hall & _ & _ & Hdisk).
  done.
Qed.
End TrackerFacts.

(** ** Zero epochs, the first checkpoint, the scheduler *)

Section MoreFacts.

Context {T : Torch}.

(** C5. With [n_epochs = 0] the loop body never runs: [train_model] returns
    the model it was given, raises nothing, writes no file and logs nothing;
    the tracker holds accuracy 0 and a copy of the initial weights. *)
Theorem train_model_zero_epochs (dataloaders : Phase -> DataLoader) (s0 : St) :
  let r := train_model dataloaders 0 s0 in
  r.1 = Returned (model s0) /\
  model r.2 = model s0 /\ optimizer r.2 = optimizer s0 /\
  scheduler r.2 = scheduler s0 /\ generator r.2 = generator s0 /\
  files r.2 = files s0 /\ events r.2 = events s0 /\
  best_acc r.2 = 0%Qc /\ best_model_wts r.2 = state_dict (model s0) /\
  val_acc_history r.2 = [].
Proof. simpl. repeat split. Qed.

(** C2, amended. The first validation phase writes a checkpoint exactly when
    its accuracy is greater than the initial best accuracy 0: a run of one
    epoch that does not raise writes one checkpoint if that accuracy is
    positive, and none (leaving the disk as it was) if it is not. *)
Theorem first_validation_checkpoint (dataloaders : Phase -> DataLoader) (s0 : St) :
  (after_epochs dataloaders 1 s0).1 = Returned () ->
  let s := (after_epochs dataloaders 1 s0).2 in
  exists acc,
    val_acc_history s = [acc] /\
    (((0 < acc)%Qc /\ best_acc s = acc /\
      saves (events s) = saves (events s0) ++ [state_dict (model s)] /\
      files s = <[model_path := CheckpointFile (state_dict (model s))]> (files s0)) \/
     ((acc <= 0)%Qc /\ best_acc s = 0%Qc /\
      saves (events s) = saves (events s0) /\
      files s = files s0)).
Proof.
  rewrite after_epochs_S, after_epochs_0. simpl.
  set (s1 := set_best_acc _ _).
  pose proof (epoch_body_tracker dataloaders 0 s1) as Hstep.
  destruct (epoch_body dataloaders 0 s1) as [o s]. simpl in *.
  intros ->.
  inversion Hstep as [|acc s' Hlt Hf Hw Ha Hh Hs|acc s' Hle Hf Hw Ha Hh Hs]; subst s'.
  - exists acc. split; [done|]. left. done.
  - exists acc. split; [done|]. right. done.
Qed.

Lemma lr_and_steps_app (l1 l2 : list Event) :
  lr_and_steps (l1 ++ l2) = lr_and_steps l1 ++ lr_and_steps l2.
Proof. apply omap_app. Qed.

Lemma lr_and_steps_batches (phase : Phase) (n : nat) :
  lr_and_steps (concat (replicate n (batch_events phase))) = [].
Proof.
  induction n as [|n IH]; simpl; [done|].
  rewrite lr_and_steps_app, IH. by destruct phase.
Qed.

(** C3, amended. An epoch that does not raise logs exactly these events, in
    this order: the train batches; the learning rate the scheduler had when
    the epoch began; one scheduler step; the training loss and accuracy; the
    validation batches; the validation loss and accuracy; and possibly a
    checkpoint. So the scheduler is stepped once per epoch, after the last
    train batch and never in the validation phase, and the learning rate is
    logged before that step: it is the rate of this epoch's train phase. *)
Theorem scheduler_stepped_once_after_lr_logged
    (dataloaders : Phase -> DataLoader) (epoch : nat) (s : St) :
  (epoch_body dataloaders epoch s).1 = Returned () ->
  let s' := (epoch_body dataloaders epoch s).2 in
  exists n_train n_val train_loss train_acc val_loss val_acc checkpoint,
    events s' =
      events s
      ++ [EvModelTrain] ++ concat (replicate n_train (batch_events Train))
      ++ [EvAddScalar "lr" (get_last_lr (scheduler s)) (epoch + 1);
          EvSchedulerStep;
          EvAddScalar "training loss" train_loss (epoch + 1);
          EvAddScalar "training acc" train_acc (epoch + 1)]
      ++ [EvModelEval] ++ concat (replicate n_val (batch_events Val))
      ++ [EvAddScalar "valid loss" val_loss (epoch + 1);
          EvAddScalar "valid acc" val_acc (epoch + 1)]
      ++ checkpoint /\
    (checkpoint = [] \/ checkpoint = [EvTorchSave model_path (state_dict (model s'))]) /\
    lr_and_steps (events s')
    = lr_and_steps (events s) ++ [inl (get_last_lr (scheduler s)); inr ()] /\
    scheduler s'
    = (scheduler_step (scheduler s) (optimizer (after_batches dataloaders Train s))).1.
Proof.
  rewrite epoch_body_run, phase_body_run.
  pose proof (run_phase_state dataloaders Train s) as Hst1.
  destruct (after_batches_frame dataloaders Train s) as (Hsch1 & _ & _ & _ & _ & _ & Hev1).
  destruct (run_phase dataloaders Train s) as [[[tl ta]|e] s1]; [|done].
  simpl in Hst1. subst s1.
  set (s1 := after_batches dataloaders Train s) in *.
  set (s2 := after_end_phase epoch Train tl ta s1).
  rewrite phase_body_run.
  pose proof (run_phase_state dataloaders Val s2) as Hst2.
  destruct (after_batches_frame dataloaders Val s2) as (Hsch2 & _ & _ & _ & _ & _ & Hev2).
  destruct (run_phase dataloaders Val s2) as [[[vl va]|e] s3]; [|done].
  simpl in Hst2. subst s3.
  set (s3 := after_batches dataloaders Val s2) in *.
  intros _. simpl.
  exists (length (phase_batches dataloaders Train s)),
    (length (phase_batches dataloaders Val s2)), tl, ta, vl, va.
  assert (Hev3 : events s2 = events s1
    ++ [EvAddScalar "lr" (get_last_lr (scheduler s)) (epoch + 1); EvSchedulerStep;
        EvAddScalar "training loss" tl (epoch + 1);
        EvAddScalar "training acc" ta (epoch + 1)])
    by (subst s2; simpl; by rewrite Hsch1).
  assert (Hsch3 : scheduler s2 = (scheduler_step (scheduler s) (optimizer s1)).1)
    by (subst s2; simpl; by rewrite Hsch1).
  unfold after_end_phase. case_bool_decide.
  - exists [EvTorchSave model_path (state_dict (model s3))]. simpl.
    rewrite Hev2, Hev3, Hev1. simpl.
    split; [by rewrite <- !app_assoc|]. split; [by right|].
    split; [|congruence].
    rewrite !lr_and_steps_app. change (?x :: concat ?l) with ([x] ++ concat l).
    rewrite !lr_and_steps_app, !lr_and_steps_batches. simpl.
    by rewrite !app_nil_r.
  - exists []. simpl.
    rewrite Hev2, Hev3, Hev1. simpl.
    split; [by rewrite <- !app_assoc|]. split; [by left|].
    split; [|congruence].
    rewrite !lr_and_steps_app. change (?x :: concat ?l) with ([x] ++ concat l).
    rewrite !lr_and_steps_app, !lr_and_steps_batches. simpl.
    by rewrite !app_nil_r.
Qed.
End MoreFacts.

(** ** The averages of a phase *)

Section MetricFacts.

Context {T : Torch}.

Lemma batches_aux_total_length {A : Type} (b fuel : nat) (l : list A) :
  0 < b -> length l <= fuel ->
  sum_list_with length (batches_aux fuel b l) = length l.
Proof.
  intros Hb. revert l. induction fuel as [|fuel IH]; intros l Hl.
  - destruct l; simpl in *; [done|lia].
  - destruct l as [|x l]; [done|].
    cbn [batches_aux sum_list_with].
    rewrite IH.
    + rewrite length_take, length_drop. lia.
    + rewrite length_drop. simpl in *. lia.
Qed.

Lemma batches_total_length {A : Type} (b : nat) (l : list A) :
  0 < b -> sum_list_with length (batches b l) = length l.
Proof. intros Hb. by apply batches_aux_total_length. Qed.

Lemma batches_nonempty {A : Type} (b : nat) (l : list A) :
  l <> [] -> batches b l <> [].
Proof. unfold batches. by destruct l. Qed.

Lemma count_equal_le (preds labels : list nat) :
  count_equal preds labels <= length labels.
Proof.
  unfold count_equal.
  etrans; [apply length_filter|]. rewrite length_zip. lia.
Qed.

(** The accumulators after the batches of a phase. *)
Lemma fold_batches_corrects (phase : Phase) (bs : list (list Sample)) (s : St) :
  corrects_value (running_corrects (foldl (fun s' data => after_batch phase data s') s bs))
  <= corrects_value (running_corrects s) + sum_list_with length bs.
Proof.
  revert s. induction bs as [|data bs IH]; intros s; simpl; [lia|].
  etrans; [apply IH|].
  pose proof (count_equal_le
    (max_dim1 (forward (is_train phase) (zero_grad (optimizer s) (model s)) (data.*1)).2)
    (data.*2)) as Hc.
  rewrite length_fmap in Hc.
  simpl. destruct (running_corrects s); simpl; lia.
Qed.

Lemma fold_batches_loss `{!NonNegativeLoss T}
    (phase : Phase) (bs : list (list Sample)) (s : St) :
  (0 <= running_loss s)%Qc ->
  (0 <= running_loss (foldl (fun s' data => after_batch phase data s') s bs))%Qc.
Proof.
  revert s. induction bs as [|data bs IH]; intros s Hs; simpl; [done|].
  apply IH. simpl.
  rewrite <- (Qcplus_0_l 0). apply Qcplus_le_compat; [done|].
  apply Qcmult_nonneg_nonneg; [apply loss_item_nonneg|].
  rewrite <- Z2Qc_inj_0. apply (proj1 (Z2Qc_inj_le _ _)). lia.
Qed.

Lemma fold_batches_stays_tensor (phase : Phase) (bs : list (list Sample)) (s : St) :
  is_tensor (running_corrects s) = true ->
  is_tensor (running_corrects (foldl (fun s' data => after_batch phase data s') s bs)) = true.
Proof.
  revert s. induction bs as [|data bs IH]; intros s Hs; simpl; [done|].
  apply IH. simpl. by destruct (running_corrects s).
Qed.

Lemma fold_batches_is_tensor (phase : Phase) (bs : list (list Sample)) (s : St) :
  bs <> [] ->
  is_tensor (running_corrects (foldl (fun s' data => after_batch phase data s') s bs)) = true.
Proof.
  destruct bs as [|data bs]; [done|]. intros _. simpl.
  apply fold_batches_stays_tensor. simpl. by destruct (running_corrects s).
Qed.

Lemma phase_batches_total_length `{!SamplerSpec T}
    (dataloaders : Phase -> DataLoader) (phase : Phase) (s : St) :
  sum_list_with length (phase_batches dataloaders phase s)
  = length (dataset (dataloaders phase)).
Proof.
  unfold phase_batches. rewrite batches_total_length by lia.
  apply Permutation_length, shuffle_perm.
Qed.

Lemma phase_batches_nonempty `{!SamplerSpec T}
    (dataloaders : Phase -> DataLoader) (phase : Phase) (s : St) :
  dataset (dataloaders phase) <> [] -> phase_batches dataloaders phase s <> [].
Proof.
  intros Hne. apply batches_nonempty. intros Hnil.
  pose proof (shuffle_perm (generator s) (dataset (dataloaders phase))) as Hp.
  rewrite Hnil in Hp. apply Permutation_nil_l in Hp. done.
Qed.

(** A phase over a non-empty split returns its two averages. *)
Lemma run_phase_returns `{!SamplerSpec T}
    (dataloaders : Phase -> DataLoader) (phase : Phase) (s : St) :
  dataset (dataloaders phase) <> [] ->
  exists c,
    c <= length (dataset (dataloaders phase)) /\
    run_phase dataloaders phase s
    = (Returned ((running_loss (after_batches dataloaders phase s)
                  / Qc_of_Z (Z.of_nat (length (dataset (dataloaders phase)))))%Qc,
                 (Qc_of_Z (Z.of_nat c)
                  / Qc_of_Z (Z.of_nat (length (dataset (dataloaders phase)))))%Qc),
       after_batches dataloaders phase s).
Proof.
  intros Hne. rewrite run_phase_run. simpl.
  destruct (decide _) as [Hn|Hn]; [by apply length_zero_iff_nil in Hn|].
  pose proof (fold_batches_is_tensor phase (phase_batches dataloaders phase s)
                (before_batches dataloaders phase s)
                (phase_batches_nonempty dataloaders phase s Hne)) as Ht.
  fold (after_batches dataloaders phase s) in Ht.
  assert (Hc : corrects_value (running_corrects (after_batches dataloaders phase s))
               <= length (dataset (dataloaders phase))).
  { rewrite <- (phase_batches_total_length dataloaders phase s).
    apply (fold_batches_corrects phase (phase_batches dataloaders phase s)
             (before_batches dataloaders phase s)). }
  destruct (running_corrects (after_batches dataloaders phase s)) as [c|c]; [done|].
  exists c. done.
Qed.

Lemma Qc_of_nat_pos (n : nat) : n <> 0 -> (0 < Qc_of_Z (Z.of_nat n))%Qc.
Proof.
  intros Hn. rewrite <- Z2Qc_inj_0. apply (proj1 (Z2Qc_inj_lt _ _)). lia.
Qed.

Lemma Qc_div_nonneg (x : Qc) (n : nat) :
  n <> 0 -> (0 <= x)%Qc -> (0 <= x / Qc_of_Z (Z.of_nat n))%Qc.
Proof.
  intros Hn Hx. unfold Qcdiv.
  apply Qcmult_nonneg_nonneg; [done|].
  apply Qclt_le_weak, Qcinv_pos, Qc_of_nat_pos, Hn.
Qed.

Lemma Qc_ratio_le_1 (c n : nat) :
  n <> 0 -> c <= n -> (Qc_of_Z (Z.of_nat c) / Qc_of_Z (Z.of_nat n) <= 1)%Qc.
Proof.
  intros Hn Hc. unfold Qcdiv.
  pose proof (Qc_of_nat_pos n Hn) as Hpos.
  rewrite <- (Qcmult_inv_r (Qc_of_Z (Z.of_nat n))).
  - apply Qcmult_le_mono_nonneg_r.
    + apply Qclt_le_weak, Qcinv_pos, Hpos.
    + apply (proj1 (Z2Qc_inj_le _ _)). lia.
  - intros Heq. rewrite Heq in Hpos. by apply Qclt_not_eq in Hpos.
Qed.

(** C8. A phase over a non-empty split, with a loss that is never negative,
    returns an average loss that is at least 0 and an accuracy between 0 and
    1: the accuracy is a count of correct predictions, at most the size of
    the split, divided by that size. *)
Theorem epoch_metrics_in_range `{!SamplerSpec T} `{!NonNegativeLoss T}
    (dataloaders : Phase -> DataLoader) (phase : Phase) (s : St) :
  dataset (dataloaders phase) <> [] ->
  exists (epoch_loss epoch_acc : Qc) (corrects : nat),
    (run_phase dataloaders phase s).1 = Returned (epoch_loss, epoch_acc) /\
    corrects <= length (dataset (dataloaders phase)) /\
    epoch_acc = (Qc_of_Z (Z.of_nat corrects)
                 / Qc_of_Z (Z.of_nat (length (dataset (dataloaders phase)))))%Qc /\
    (0 <= epoch_loss)%Qc /\ (0 <= epoch_acc)%Qc /\ (epoch_acc <= 1)%Qc.
Proof.
  intros Hne.
  destruct (run_phase_returns dataloaders phase s Hne) as (c & Hc & ->). simpl.
  assert (Hn : length (dataset (dataloaders phase)) <> 0)
    by (by intros ?%length_zero_iff_nil).
  eexists _, _, c. split; [done|]. split; [done|]. split; [done|].
  split; [|split].
  - apply Qc_div_nonneg; [done|].
    unfold after_batches. by apply fold_batches_loss.
  - apply Qc_div_nonneg; [done|].
    rewrite <- Z2Qc_inj_0. apply (proj1 (Z2Qc_inj_le _ _)). lia.
  - by apply Qc_ratio_le_1.
Qed.

Lemma run_phase_empty (dataloaders : Phase -> DataLoader) (phase : Phase) (s : St) :
  dataset (dataloaders phase) = [] ->
  (run_phase dataloaders phase s).1 = Raised ZeroDivisionError.
Proof.
  intros Hnil. rewrite run_phase_run. simpl. rewrite Hnil. done.
Qed.

Lemma phase_body_returns `{!SamplerSpec T}
    (dataloaders : Phase -> DataLoader) (epoch : nat) (phase : Phase) (s : St) :
  dataset (dataloaders phase) <> [] ->
  (phase_body dataloaders epoch phase s).1 = Returned ().
Proof.
  intros Hne. rewrite phase_body_run.
  by destruct (run_phase_returns dataloaders phase s Hne) as (c & _ & ->).
Qed.

Lemma phase_body_empty (dataloaders : Phase -> DataLoader) (epoch : nat) (phase : Phase) (s : St) :
  dataset (dataloaders phase) = [] ->
  (phase_body dataloaders epoch phase s).1 = Raised ZeroDivisionError.
Proof.
  intros Hnil. rewrite phase_body_run.
  pose proof (run_phase_empty dataloaders phase s Hnil) as Hr.
  destruct (run_phase dataloaders phase s) as [[[l a]|e] s2]; simpl in *; congruence.
Qed.

Lemma epoch_body_returns `{!SamplerSpec T}
    (dataloaders : Phase -> DataLoader) (epoch : nat) (s : St) :
  (forall phase, dataset (dataloaders phase) <> []) ->
  (epoch_body dataloaders epoch s).1 = Returned ().
Proof.
  intros Hne. rewrite epoch_body_run.
  pose proof (phase_body_returns dataloaders epoch Train s (Hne Train)) as H1.
  destruct (phase_body dataloaders epoch Train s) as [[[]|e] s1]; [|done].
  apply phase_body_returns, Hne.
Qed.

Lemma epoch_body_empty `{!SamplerSpec T}
    (dataloaders : Phase -> DataLoader) (epoch : nat) (phase : Phase) (s : St) :
  dataset (dataloaders phase) = [] ->
  (epoch_body dataloaders epoch s).1 = Raised ZeroDivisionError.
Proof.
  intros Hnil. rewrite epoch_body_run.
  destruct (decide (dataset (dataloaders Train) = [])) as [Ht|Ht].
  - pose proof (phase_body_empty dataloaders epoch Train s Ht) as H1.
    destruct (phase_body dataloaders epoch Train s) as [[[]|e] s1]; simpl in *; congruence.
  - pose proof (phase_body_returns dataloaders epoch Train s Ht) as H1.
    destruct (phase_body dataloaders epoch Train s) as [[[]|e] s1]; [|done].
    destruct phase; [done|]. by apply phase_body_empty.
Qed.

Lemma after_epochs_returns `{!SamplerSpec T}
    (dataloaders : Phase -> DataLoader) (k : nat) (s0 : St) :
  (forall phase, dataset (dataloaders phase) <> []) ->
  (after_epochs dataloaders k s0).1 = Returned ().
Proof.
  intros Hne. induction k as [|k IH]; [done|].
  rewrite after_epochs_S.
  destruct (after_epochs dataloaders k s0) as [[[]|e] s]; [|done].
  by apply epoch_body_returns.
Qed.

Lemma after_epochs_empty `{!SamplerSpec T}
    (dataloaders : Phase -> DataLoader) (k : nat) (phase : Phase) (s0 : St) :
  dataset (dataloaders phase) = [] ->
  (after_epochs dataloaders (S k) s0).1 = Raised ZeroDivisionError.
Proof.
  intros Hnil. induction k as [|k IH].
  - rewrite after_epochs_S, after_epochs_0. by apply (epoch_body_empty _ _ phase).
  - rewrite after_epochs_S.
    destruct (after_epochs dataloaders (S k) s0) as [[[]|e] s]; simpl in *; congruence.
Qed.

(** C10. The two averages divide by the size of the phase's data set, and
    nothing guards the division. When both splits are non-empty,
    [train_model] returns, for any number of epochs. When a split is empty,
    its phase raises [ZeroDivisionError] instead of computing averages, and
    so does every run of at least one epoch. *)
Theorem division_by_dataset_size `{!SamplerSpec T} (dataloaders : Phase -> DataLoader) :
  ((forall phase, dataset (dataloaders phase) <> []) ->
   forall n_epochs s0, exists s,
     train_model dataloaders n_epochs s0 = (Returned (model s), s)) /\
  (forall phase, dataset (dataloaders phase) = [] ->
     (forall s, (run_phase dataloaders phase s).1 = Raised ZeroDivisionError) /\
     (forall n_epochs s0,
        (train_model dataloaders (S n_epochs) s0).1 = Raised ZeroDivisionError)).
Proof.
  split.
  - intros Hne n s0. rewrite train_model_run.
    pose proof (after_epochs_returns dataloaders n s0 Hne) as Hr.
    destruct (after_epochs dataloaders n s0) as [[[]|e] s]; [|done].
    by exists s.
  - intros phase Hnil. split; [intros s; by apply run_phase_empty|].
    intros n s0. rewrite train_model_run.
    pose proof (after_epochs_empty dataloaders n phase s0 Hnil) as Hr.
    destruct (after_epochs dataloaders (S n) s0) as [[[]|e] s]; simpl in *; congruence.
Qed.
End MetricFacts.

(** ** Who writes the parameters, and what the returned model depends on *)

Section FrameFacts.

Context {T : Torch}.

Lemma fold_batches_val_parameters `{!ParameterFrame T} (bs : list (list Sample)) (s : St) :
  let s' := foldl (fun s' data => after_batch Val data s') s bs in
  parameters (model s') = parameters (model s) /\ optimizer s' = optimizer s.
Proof.
  revert s. induction bs as [|data bs IH]; intros s; simpl; [done|].
  destruct (IH (after_batch Val data s)) as [-> ->]. simpl.
  by rewrite parameters_forward, parameters_zero_grad.
Qed.

(** C4. A batch never raises. Its forward pass runs with gradient tracking
    switched on exactly in the train phase, and the flag is put back
    afterwards; backpropagation and the optimizer step happen in the train
    phase only. A validation batch leaves the parameters and the optimizer
    as they were, and in a train batch the parameters that enter the
    optimizer step are still those the batch started with. Outside the
    batches nothing writes a parameter: not the mode switch, not the end of
    a phase; so a whole validation phase leaves every parameter unchanged. *)
Theorem parameters_change_only_in_optimizer_step `{!ParameterFrame T}
    (dataloaders : Phase -> DataLoader) (epoch : nat) (phase : Phase)
    (data : list Sample) (epoch_loss epoch_acc : Qc) (s : St) :
  let r := batch_body phase data s in
  r.1 = Returned () /\
  events r.2 = events s ++ EvZeroGrad :: EvForward (is_train phase)
               :: (if is_train phase then [EvBackward; EvOptimizerStep] else []) /\
  grad_enabled r.2 = grad_enabled s /\
  match phase with
  | Train => exists m, parameters m = parameters (model s) /\
                       model r.2 = (optimizer_step (optimizer s) m).2
  | Val => parameters (model r.2) = parameters (model s) /\ optimizer r.2 = optimizer s
  end /\
  parameters (model (do_model_train s).2) = parameters (model s) /\
  parameters (model (do_model_eval s).2) = parameters (model s) /\
  model (end_phase epoch phase epoch_loss epoch_acc s).2 = model s /\
  parameters (model (phase_body dataloaders epoch Val s).2) = parameters (model s).
Proof.
  simpl. rewrite batch_body_run. simpl.
  split; [done|]. split; [done|]. split; [done|].
  split.
  { destruct phase; simpl.
    - eexists. split; [|reflexivity].
      by rewrite parameters_backward, parameters_forward, parameters_zero_grad.
    - by rewrite parameters_forward, parameters_zero_grad. }
  split; [apply parameters_model_train|].
  split; [apply parameters_model_eval|].
  split.
  { rewrite end_phase_run. simpl. unfold after_end_phase.
    destruct phase; [done|]. by case_bool_decide. }
  rewrite phase_body_run.
  pose proof (run_phase_state dataloaders Val s) as Hst.
  assert (Hp : parameters (model (after_batches dataloaders Val s)) = parameters (model s)).
  { unfold after_batches.
    destruct (fold_batches_val_parameters (phase_batches dataloaders Val s)
                (before_batches dataloaders Val s)) as [-> _].
    simpl. apply parameters_model_eval. }
  destruct (run_phase dataloaders Val s) as [[[l a]|e] s2]; simpl in *; subst s2.
  - unfold after_end_phase. by case_bool_decide.
  - done.
Qed.

Lemma after_batch_agree (phase : Phase) (data : list Sample) (s1 s2 : St) :
  agree s1 s2 -> agree (after_batch phase data s1) (after_batch phase data s2).
Proof.
  intros (Hm & Ho & Hs & Hg & Hf & Hl & Hc).
  unfold agree, after_batch; simpl. rewrite Hm, Ho, Hs, Hg, Hf, Hl, Hc. done.
Qed.

Lemma fold_batches_agree (phase : Phase) (bs : list (list Sample)) (s1 s2 : St) :
  agree s1 s2 ->
  agree (foldl (fun s' data => after_batch phase data s') s1 bs)
        (foldl (fun s' data => after_batch phase data s') s2 bs).
Proof.
  revert s1 s2. induction bs as [|data bs IH]; intros s1 s2 H; simpl; [done|].
  by apply IH, after_batch_agree.
Qed.

Lemma after_batches_agree (dataloaders : Phase -> DataLoader) (phase : Phase) (s1 s2 : St) :
  agree s1 s2 ->
  agree (after_batches dataloaders phase s1) (after_batches dataloaders phase s2).
Proof.
  intros H. unfold after_batches, phase_batches.
  destruct H as (Hm & Ho & Hs & Hg & Hf & Hl & Hc).
  rewrite Hg. apply fold_batches_agree.
  unfold agree, before_batches; simpl. rewrite Hm, Ho, Hs, Hg, Hf. done.
Qed.

Lemma run_phase_agree (dataloaders : Phase -> DataLoader) (phase : Phase) (s1 s2 : St) :
  agree s1 s2 ->
  (run_phase dataloaders phase s1).1 = (run_phase dataloaders phase s2).1 /\
  agree (run_phase dataloaders phase s1).2 (run_phase dataloaders phase s2).2.
Proof.
  intros H. rewrite !run_phase_state.
  pose proof (after_batches_agree dataloaders phase s1 s2 H) as H'.
  split; [|done].
  rewrite !run_phase_run. simpl.
  destruct H' as (_ & _ & _ & _ & _ & -> & ->).
  destruct (decide _); [done|]. by destruct (running_corrects _).
Qed.

Lemma after_end_phase_agree (epoch : nat) (phase : Phase) (l a : Qc) (s1 s2 : St) :
  agree s1 s2 ->
  agree (after_end_phase epoch phase l a s1) (after_end_phase epoch phase l a s2).
Proof.
  intros (Hm & Ho & Hs & Hg & Hf & Hl & Hc).
  unfold agree, after_end_phase. destruct phase; simpl.
  - rewrite Hm, Ho, Hs, Hg, Hf, Hl, Hc. done.
  - do 2 case_bool_decide; simpl; done.
Qed.

Lemma phase_body_agree (dataloaders : Phase -> DataLoader) (epoch : nat) (phase : Phase)
    (s1 s2 : St) :
  agree s1 s2 ->
  (phase_body dataloaders epoch phase s1).1 = (phase_body dataloaders epoch phase s2).1 /\
  agree (phase_body dataloaders epoch phase s1).2 (phase_body dataloaders epoch phase s2).2.
Proof.
  intros H. rewrite !phase_body_run.
  destruct (run_phase_agree dataloaders phase s1 s2 H) as [Ho Ha].
  destruct (run_phase dataloaders phase s1) as [[[l1 a1]|e1] t1],
           (run_phase dataloaders phase s2) as [[[l2 a2]|e2] t2];
    simpl in *; try done; try (by split).
  - injection Ho as -> ->. split; [done|]. by apply after_end_phase_agree.
  - by injection Ho as ->.
Qed.

Lemma epoch_body_agree (dataloaders : Phase -> DataLoader) (epoch : nat) (s1 s2 : St) :
  agree s1 s2 ->
  (epoch_body dataloaders epoch s1).1 = (epoch_body dataloaders epoch s2).1 /\
  agree (epoch_body dataloaders epoch s1).2 (epoch_body dataloaders epoch s2).2.
Proof.
  intros H. rewrite !epoch_body_run.
  destruct (phase_body_agree dataloaders epoch Train s1 s2 H) as [Ho Ha].
  destruct (phase_body dataloaders epoch Train s1) as [[[]|e1] t1],
           (phase_body dataloaders epoch Train s2) as [[[]|e2] t2];
    simpl in *; try done; try (by split).
  by apply phase_body_agree.
Qed.

Lemma for_epochs_agree (dataloaders : Phase -> DataLoader) (epochs : list nat) (s1 s2 : St) :
  agree s1 s2 ->
  (for_ epochs (epoch_body dataloaders) s1).1 = (for_ epochs (epoch_body dataloaders) s2).1 /\
  agree (for_ epochs (epoch_body dataloaders) s1).2 (for_ epochs (epoch_body dataloaders) s2).2.
Proof.
  revert s1 s2. induction epochs as [|epoch epochs IH]; intros s1 s2 H; simpl; [done|].
  rewrite !bind_run.
  destruct (epoch_body_agree dataloaders epoch s1 s2 H) as [Ho Ha].
  destruct (epoch_body dataloaders epoch s1) as [[[]|e1] t1],
           (epoch_body dataloaders epoch s2) as [[[]|e2] t2];
    simpl in *; try done; try (by split).
  by apply IH.
Qed.

(** C6. [train_model] hands back the model object as the last epoch left it
    (and raises whenever an epoch raised); and nothing the epochs do to the
    model, the optimizer, the scheduler or the random generator depends on
    the tracker: run from two states that differ only in the tracker, the
    files and the log, the epochs end alike and leave the same model. The
    snapshot in [best_model_wts] is never loaded back. *)
Theorem train_model_returns_final_model
    (dataloaders : Phase -> DataLoader) (n_epochs : nat) (s0 : St) :
  train_model dataloaders n_epochs s0 =
    match after_epochs dataloaders n_epochs s0 with
    | (Returned _, s) => (Returned (model s), s)
    | (Raised e, s) => (Raised e, s)
    end /\
  forall (epochs : list nat) (s1 s2 : St),
    agree s1 s2 ->
    (for_ epochs (epoch_body dataloaders) s1).1 = (for_ epochs (epoch_body dataloaders) s2).1 /\
    model (for_ epochs (epoch_body dataloaders) s1).2
    = model (for_ epochs (epoch_body dataloaders) s2).2.
Proof.
  split; [apply train_model_run|].
  intros epochs s1 s2 H.
  destruct (for_epochs_agree dataloaders epochs s1 s2 H) as [Ho (Hm & _)]. done.
Qed.
End FrameFacts.

Import Script.

(** ** The label map *)

Section LabelMapFacts.


Lemma classes_perm (dirs : gset string) : classes dirs ≡ₚ elements dirs.
Proof. apply merge_sort_Permutation. Qed.

Lemma classes_NoDup (dirs : gset string) : NoDup (classes dirs).
Proof. rewrite classes_perm. apply NoDup_elements. Qed.

Lemma classes_length (dirs : gset string) : length (classes dirs) = size dirs.
Proof. by rewrite classes_perm. Qed.

Lemma class_to_idx_lookup (dirs : gset string) (c : string) (i : nat) :
  class_to_idx dirs !! c = Some i <-> classes dirs !! i = Some c.
Proof.
  unfold class_to_idx.
  rewrite <- elem_of_list_to_map.
  - rewrite list_elem_of_lookup. split.
    + intros [j Hj]. apply lookup_zip_with_Some in Hj as (c' & i' & [= -> ->] & Hc & Hi).
      apply lookup_seq in Hi as [-> _]. done.
    + intros Hc. exists i. apply lookup_zip_with_Some. exists c, i.
      split; [done|]. split; [done|].
      apply lookup_seq. split; [done|]. by apply lookup_lt_Some in Hc.
  - rewrite fst_zip; [apply classes_NoDup|]. by rewrite length_seq.
Qed.

Lemma class_to_idx_dom (dirs : gset string) : dom (class_to_idx dirs) = dirs.
Proof.
  unfold class_to_idx. rewrite dom_list_to_map_L.
  rewrite fst_zip by (by rewrite length_seq).
  apply set_eq. intros c. rewrite elem_of_list_to_set, classes_perm. apply elem_of_elements.
Qed.

Lemma class_to_idx_bijection (dirs : gset string) :
  dom (class_to_idx dirs) = dirs /\
  (forall c i, class_to_idx dirs !! c = Some i -> i < size dirs) /\
  (forall c1 c2 i,
     class_to_idx dirs !! c1 = Some i -> class_to_idx dirs !! c2 = Some i -> c1 = c2) /\
  (forall i, i < size dirs -> exists c, class_to_idx dirs !! c = Some i).
Proof.
  split; [apply class_to_idx_dom|]. split; [|split].
  - intros c i Hc%class_to_idx_lookup%lookup_lt_Some. by rewrite classes_length in Hc.
  - intros c1 c2 i H1%class_to_idx_lookup H2%class_to_idx_lookup. congruence.
  - intros i Hi. rewrite <- classes_length in Hi.
    apply lookup_lt_is_Some in Hi as [c Hc]. exists c. by apply class_to_idx_lookup.
Qed.

End LabelMapFacts.

(** ** The script *)

Section ScriptFacts.

Context {T : Torch}.

Lemma training_only_refl (s : St) : training_only s s.
Proof.
  split; [|done]. exists []. by rewrite app_nil_r.
Qed.

Lemma training_only_trans (s1 s2 s3 : St) :
  training_only s1 s2 -> training_only s2 s3 -> training_only s1 s3.
Proof.
  intros [(e1 & He1 & Hp1) Hf1] [(e2 & He2 & Hp2) Hf2]. split.
  - exists (e1 ++ e2). rewrite He2, He1, app_assoc. split; [done|].
    by apply Forall_app.
  - intros p Hp. rewrite Hf2, Hf1; done.
Qed.

Lemma batch_events_no_pickle (phase : Phase) (n : nat) :
  Forall (fun e => is_pickle_dump e = false) (concat (replicate n (batch_events phase))).
Proof.
  induction n as [|n IH]; [done|].
  cbn [replicate concat].
  apply Forall_app. split; [|done]. destruct phase; repeat constructor.
Qed.

Lemma after_batches_training_only (dataloaders : Phase -> DataLoader) (phase : Phase) (s : St) :
  training_only s (after_batches dataloaders phase s).
Proof.
  destruct (after_batches_frame dataloaders phase s) as (_ & _ & Hf & _ & _ & _ & He).
  split.
  - eexists. split; [apply He|].
    constructor; [by destruct phase|apply batch_events_no_pickle].
  - intros p _. by rewrite Hf.
Qed.

Lemma after_end_phase_training_only (epoch : nat) (phase : Phase) (l a : Qc) (s : St) :
  training_only s (after_end_phase epoch phase l a s).
Proof.
  unfold after_end_phase. destruct phase; [|case_bool_decide]; simpl.
  - split; [|done]. eexists. split; [done|]. repeat constructor.
  - split.
    + eexists. split; [done|]. repeat constructor.
    + intros p Hp. simpl. by rewrite lookup_insert_ne.
  - split; [|done]. eexists. split; [done|]. repeat constructor.
Qed.

Lemma phase_body_training_only (dataloaders : Phase -> DataLoader) (epoch : nat)
    (phase : Phase) (s : St) :
  training_only s (phase_body dataloaders epoch phase s).2.
Proof.
  rewrite phase_body_run.
  pose proof (run_phase_state dataloaders phase s) as Hst.
  pose proof (after_batches_training_only dataloaders phase s) as Hb.
  destruct (run_phase dataloaders phase s) as [[[l a]|e] s2]; simpl in *; subst s2.
  - eapply training_only_trans; [apply Hb|apply after_end_phase_training_only].
  - done.
Qed.

Lemma epoch_body_training_only (dataloaders : Phase -> DataLoader) (epoch : nat) (s : St) :
  training_only s (epoch_body dataloaders epoch s).2.
Proof.
  rewrite epoch_body_run.
  pose proof (phase_body_training_only dataloaders epoch Train s) as H1.
  destruct (phase_body dataloaders epoch Train s) as [[[]|e] s1]; simpl in *; [|done].
  eapply training_only_trans; [apply H1|apply phase_body_training_only].
Qed.

Lemma for_epochs_training_only (dataloaders : Phase -> DataLoader) (epochs : list nat) (s : St) :
  training_only s (for_ epochs (epoch_body dataloaders) s).2.
Proof.
  revert s. induction epochs as [|epoch epochs IH]; intros s; simpl.
  - apply training_only_refl.
  - rewrite bind_run.
    pose proof (epoch_body_training_only dataloaders epoch s) as H1.
    destruct (epoch_body dataloaders epoch s) as [[[]|e] s1]; simpl in *; [|done].
    eapply training_only_trans; [apply H1|apply IH].
Qed.

Lemma train_model_training_only (dataloaders : Phase -> DataLoader) (n_epochs : nat) (s : St) :
  training_only s (train_model dataloaders n_epochs s).2.
Proof.
  unfold train_model. rewrite !bind_run. simpl.
  set (s1 := set_best_acc _ _). rewrite bind_run.
  pose proof (for_epochs_training_only dataloaders (seq 0 n_epochs) s1) as H1.
  destruct (for_ (seq 0 n_epochs) (epoch_body dataloaders) s1) as [[[]|e] s2]; simpl in *; done.
Qed.

(** C9. The label map is the one of the validation folder: it maps the names
    of that folder's class directories one-to-one onto [0 .. count-1], where
    [count] is the number of those directories. The script pickles it to
    ["dict.pkl"] exactly once, and before [train_model] logs or writes
    anything; training, however it ends, does not touch that file. *)
Theorem label_map_saved_once_before_training
    (image_datasets : Phase -> ImageFolder) (s0 : St) :
  let dirs := class_dirs (image_datasets Val) in
  let label_map := class_to_idx dirs in
  let s := (main image_datasets s0).2 in
  (dom label_map = dirs /\
   (forall c i, label_map !! c = Some i -> i < size dirs) /\
   (forall c1 c2 i, label_map !! c1 = Some i -> label_map !! c2 = Some i -> c1 = c2) /\
   (forall i, i < size dirs -> exists c, label_map !! c = Some i)) /\
  (exists training_events,
     events s = events s0 ++ EvPickleDump "dict.pkl" label_map :: training_events /\
     Forall (fun e => is_pickle_dump e = false) training_events) /\
  files s !! "dict.pkl" = Some (PickleFile label_map).
Proof.
  simpl. split; [apply class_to_idx_bijection|].
  unfold main. rewrite bind_run. simpl.
  set (s1 := set_events _ _).
  destruct (train_model_training_only (dataloaders_dict image_datasets) num_epochs s1)
    as [(evs & He & Hp) Hf].
  split.
  - exists evs. rewrite He. subst s1. simpl. rewrite <- app_assoc. done.
  - rewrite Hf by done. subst s1. simpl. apply lookup_insert_eq.
Qed.
End ScriptFacts.

(** ** The loop at work on the small instance *)

Import Toy.

Lemma toy_sampler : SamplerSpec toy.
Proof. intros g l. simpl. apply reverse_Permutation. Qed.

Lemma toy_frame : ParameterFrame toy.
Proof. by split. Qed.

Lemma toy_nonneg : NonNegativeLoss toy.
Proof.
  intros outputs labels. simpl.
  rewrite <- Z2Qc_inj_0. apply (proj1 (Z2Qc_inj_le _ _)). lia.
Qed.

Lemma best_state_tracker_invariant_witness :
  1 <= 3 /\
  let sj := (after_epochs scenario_loaders 1 (start 0)).2 in
  let s := (after_epochs scenario_loaders 3 (start 0)).2 in
  (best_acc sj <= best_acc s)%Qc /\
  Forall (fun a => (a <= best_acc s)%Qc) (val_acc_history s) /\
  ((best_acc s = 0%Qc /\ files s = files (start 0)
    /\ saves (events s) = saves (events (start 0))) \/
   (exists e, e < 3 /\
      val_acc_history s !! e = Some (best_acc s) /\
      files s !! model_path
      = Some (CheckpointFile (state_dict (model (after_epochs scenario_loaders (S e) (start 0)).2))) /\
      last (saves (events s))
      = Some (state_dict (model (after_epochs scenario_loaders (S e) (start 0)).2)))).
Proof.
  split; [lia|].
  exact (best_state_tracker_invariant scenario_loaders (start 0) 1 3 (le_S _ _ (le_S _ _ (le_n 1)))).
Defined.

Lemma first_validation_checkpoint_witness :
  (after_epochs scenario_loaders 1 (start 1)).1 = Returned () /\
  let s := (after_epochs scenario_loaders 1 (start 1)).2 in
  exists acc,
    val_acc_history s = [acc] /\
    (((0 < acc)%Qc /\ best_acc s = acc /\
      saves (events s) = saves (events (start 1)) ++ [state_dict (model s)] /\
      files s = <[model_path := CheckpointFile (state_dict (model s))]> (files (start 1))) \/
     ((acc <= 0)%Qc /\ best_acc s = 0%Qc /\
      saves (events s) = saves (events (start 1)) /\
      files s = files (start 1))).
Proof.
  split; [vm_compute; reflexivity|].
  apply (first_validation_checkpoint scenario_loaders (start 1)).
  vm_compute; reflexivity.
Defined.

(** The scenario of section 8, from a model that classifies every validation
    image wrongly after its first epoch: 5 train batches and 2 validation
    batches are consumed, the scheduler is stepped once, the validation
    accuracy is 0, and no checkpoint is written. *)
Lemma first_validation_may_write_no_checkpoint :
  let s0 := start 0 in
  let r := after_epochs scenario_loaders 1 s0 in
  length (dataset (scenario_loaders Train)) = 10 /\
  length (dataset (scenario_loaders Val)) = 4 /\
  length (filter (fun e => bool_decide (e = inr ())) (lr_and_steps (events r.2))) = 1 /\
  length (phase_batches scenario_loaders Train s0) = 5 /\
  r.1 = Returned () /\
  (exists acc, val_acc_history r.2 = [acc] /\ (0 <= acc)%Qc) /\
  saves (events r.2) = [] /\
  files r.2 !! model_path = None.
Proof.
  repeat split; try (vm_compute; reflexivity).
  eexists. split; [vm_compute; reflexivity|].
  vm_compute. discriminate.
Qed.

Lemma scheduler_stepped_once_after_lr_logged_witness :
  (epoch_body scenario_loaders 0 (start 0)).1 = Returned () /\
  let s := start 0 in
  let s' := (epoch_body scenario_loaders 0 s).2 in
  exists n_train n_val train_loss train_acc val_loss val_acc checkpoint,
    events s' =
      events s
      ++ [EvModelTrain] ++ concat (replicate n_train (batch_events Train))
      ++ [EvAddScalar "lr" (get_last_lr (scheduler s)) (0 + 1);
          EvSchedulerStep;
          EvAddScalar "training loss" train_loss (0 + 1);
          EvAddScalar "training acc" train_acc (0 + 1)]
      ++ [EvModelEval] ++ concat (replicate n_val (batch_events Val))
      ++ [EvAddScalar "valid loss" val_loss (0 + 1);
          EvAddScalar "valid acc" val_acc (0 + 1)]
      ++ checkpoint /\
    (checkpoint = [] \/ checkpoint = [EvTorchSave model_path (state_dict (model s'))]) /\
    lr_and_steps (events s')
    = lr_and_steps (events s) ++ [inl (get_last_lr (scheduler s)); inr ()] /\
    scheduler s'
    = (scheduler_step (scheduler s) (optimizer (after_batches scenario_loaders Train s))).1.
Proof.
  split; [vm_compute; reflexivity|].
  apply (scheduler_stepped_once_after_lr_logged scenario_loaders 0 (start 0)).
  vm_compute; reflexivity.
Defined.

(** In the scenario of section 8 the log holds the learning rate first and
    the scheduler step second; the rate logged is the one the scheduler had
    before the step (1), not the one the next epoch trains with (1/2). *)
Lemma lr_logged_before_scheduler_step :
  let s0 := start 0 in
  let s := (after_epochs scenario_loaders 1 s0).2 in
  lr_and_steps (events s) = [inl (get_last_lr (scheduler s0)); inr ()] /\
  get_last_lr (scheduler s0) <> get_last_lr (scheduler s).
Proof.
  split.
  - vm_compute. reflexivity.
  - vm_compute. intros H. inversion H.
Qed.

Lemma parameters_change_only_in_optimizer_step_witness :
  ParameterFrame toy /\
  let s := start 0 in
  let data := parity_dataset 2 in
  let r := batch_body Val data s in
  r.1 = Returned () /\
  events r.2 = events s ++ EvZeroGrad :: EvForward (is_train Val)
               :: (if is_train Val then [EvBackward; EvOptimizerStep] else []) /\
  grad_enabled r.2 = grad_enabled s /\
  (parameters (model r.2) = parameters (model s) /\ optimizer r.2 = optimizer s) /\
  parameters (model (do_model_train s).2) = parameters (model s) /\
  parameters (model (do_model_eval s).2) = parameters (model s) /\
  model (end_phase 0 Val 0%Qc 0%Qc s).2 = model s /\
  parameters (model (phase_body scenario_loaders 0 Val s).2) = parameters (model s).
Proof.
  split; [exact toy_frame|].
  exact (parameters_change_only_in_optimizer_step (ParameterFrame0 := toy_frame)
           scenario_loaders 0 Val (parity_dataset 2) 0%Qc 0%Qc (start 0)).
Defined.

Lemma epoch_metrics_in_range_witness :
  SamplerSpec toy /\ NonNegativeLoss toy /\
  dataset (scenario_loaders Val) <> [] /\
  exists (epoch_loss epoch_acc : Qc) (corrects : nat),
    (run_phase scenario_loaders Val (start 0)).1 = Returned (epoch_loss, epoch_acc) /\
    corrects <= length (dataset (scenario_loaders Val)) /\
    epoch_acc = (Qc_of_Z (Z.of_nat corrects)
                 / Qc_of_Z (Z.of_nat (length (dataset (scenario_loaders Val)))))%Qc /\
    (0 <= epoch_loss)%Qc /\ (0 <= epoch_acc)%Qc /\ (epoch_acc <= 1)%Qc.
Proof.
  split; [exact toy_sampler|]. split; [exact toy_nonneg|].
  assert (Hne : dataset (scenario_loaders Val) <> []) by (vm_compute; discriminate).
  split; [exact Hne|].
  exact (epoch_metrics_in_range (SamplerSpec0 := toy_sampler) (NonNegativeLoss0 := toy_nonneg)
           scenario_loaders Val (start 0) Hne).
Defined.

Lemma division_by_dataset_size_witness :
  SamplerSpec toy /\
  ((forall phase, dataset (empty_val_loaders phase) <> []) ->
   forall n_epochs s0, exists s,
     train_model empty_val_loaders n_epochs s0 = (Returned (model s), s)) /\
  (forall phase, dataset (empty_val_loaders phase) = [] ->
     (forall s, (run_phase empty_val_loaders phase s).1 = Raised ZeroDivisionError) /\
     (forall n_epochs s0,
        (train_model empty_val_loaders (S n_epochs) s0).1 = Raised ZeroDivisionError)).
Proof.
  split; [exact toy_sampler|].
  exact (division_by_dataset_size (SamplerSpec0 := toy_sampler) empty_val_loaders).
Defined.

(** Three epochs of the scenario: the best validation accuracy is reached
    after the second epoch (weight 10, saved), the model returned is the one
    after the third (weight 15). *)
Example returned_model_is_not_the_best_snapshot :
  let r := train_model scenario_loaders 3 (start 0) in
  r.1 = Returned 15 /\ best_model_wts r.2 = 10 /\
  files r.2 !! model_path = Some (CheckpointFile 10).
Proof. repeat split; vm_compute; reflexivity. Qed.

(** A run over an empty validation split stops in the first epoch. *)
Example empty_validation_split_raises :
  (train_model empty_val_loaders 3 (start 0)).1 = Raised ZeroDivisionError.
Proof. vm_compute. reflexivity. Qed.

(** * Further results *)

(** ** The log of a phase and of an epoch *)

Section EventFacts.
Context {T : Torch}.

Lemma after_end_phase_events (epoch : nat) (phase : Phase) (l a : Qc) (s : St) :
  events (after_end_phase epoch phase l a s) = events s ++ end_phase_events epoch phase l a s.
Proof.
  unfold after_end_phase, end_phase_events.
  destruct phase; [done|]. by case_bool_decide.
Qed.



Lemma after_epochs_Returned_S (dataloaders : Phase -> DataLoader) (k : nat) (s0 : St) :
  (after_epochs dataloaders (S k) s0).1 = Returned () ->
  (after_epochs dataloaders k s0).1 = Returned () /\
  (epoch_body dataloaders k (after_epochs dataloaders k s0).2).1 = Returned () /\
  after_epochs dataloaders (S k) s0
  = epoch_body dataloaders k (after_epochs dataloaders k s0).2.
Proof.
  rewrite after_epochs_S.
  destruct (after_epochs dataloaders k s0) as [[[]|e] s]; simpl; [done|].
  intros [=].
Qed.

Lemma epoch_body_Returned (dataloaders : Phase -> DataLoader) (epoch : nat) (s : St) :
  (epoch_body dataloaders epoch s).1 = Returned () ->
  exists tl ta vl va s1 s2 s3,
    run_phase dataloaders Train s = (Returned (tl, ta), s1) /\
    s2 = after_end_phase epoch Train tl ta s1 /\
    phase_body dataloaders epoch Train s = (Returned (), s2) /\
    run_phase dataloaders Val s2 = (Returned (vl, va), s3) /\
    epoch_body dataloaders epoch s = (Returned (), after_end_phase epoch Val vl va s3).
Proof.
  rewrite epoch_body_run, !phase_body_run.
  destruct (run_phase dataloaders Train s) as [[[tl ta]|e] s1] eqn:H1; [|done].
  rewrite phase_body_run.
  destruct (run_phase dataloaders Val _) as [[[vl va]|e] s3] eqn:H2; [|done].
  intros _. by exists tl, ta, vl, va, s1, (after_end_phase epoch Train tl ta s1), s3.
Qed.
End EventFacts.

(** ** What a run leaves alone *)

Section RunFacts.
Context {T : Torch}.

(** A property of the state that every epoch keeps, returning or raising,
    holds after any number of epochs. *)
Lemma for_epochs_invariant (dataloaders : Phase -> DataLoader) (I : St -> Prop) :
  (forall epoch s, I s -> I (epoch_body dataloaders epoch s).2) ->
  forall epochs s, I s -> I (for_ epochs (epoch_body dataloaders) s).2.
Proof.
  intros Hstep epochs. induction epochs as [|epoch epochs IH]; intros s Hs; simpl; [done|].
  rewrite bind_run. specialize (Hstep epoch s Hs).
  destruct (epoch_body dataloaders epoch s) as [[[]|e] s1]; simpl in *; [|done].
  by apply IH.
Qed.

Lemma epoch_invariant_of_phases (dataloaders : Phase -> DataLoader) (I : St -> Prop) :
  (forall epoch phase s, I s -> I (phase_body dataloaders epoch phase s).2) ->
  forall epoch s, I s -> I (epoch_body dataloaders epoch s).2.
Proof.
  intros Hphase epoch s Hs. rewrite epoch_body_run.
  specialize (Hphase epoch Train s Hs) as H1.
  destruct (phase_body dataloaders epoch Train s) as [[[]|e] s1]; simpl in *; [|done].
  by apply Hphase.
Qed.

Lemma train_model_state (dataloaders : Phase -> DataLoader) (n_epochs : nat) (s0 : St) :
  (train_model dataloaders n_epochs s0).2 = (after_epochs dataloaders n_epochs s0).2.
Proof.
  rewrite train_model_run. by destruct (after_epochs dataloaders n_epochs s0) as [[[]|e] s].
Qed.

Lemma after_epochs_invariant (dataloaders : Phase -> DataLoader) (I : St -> Prop) (s0 : St) :
  I (after_epochs dataloaders 0 s0).2 ->
  (forall epoch s, I s -> I (epoch_body dataloaders epoch s).2) ->
  forall k, I (after_epochs dataloaders k s0).2.
Proof.
  intros H0 Hstep k. induction k as [|k IH]; [done|].
  rewrite after_epochs_S.
  destruct (after_epochs dataloaders k s0) as [[[]|e] s]; simpl in *; [|done].
  by apply Hstep.
Qed.

Lemma phase_body_grad_enabled (dataloaders : Phase -> DataLoader) (epoch : nat)
    (phase : Phase) (s : St) :
  grad_enabled (phase_body dataloaders epoch phase s).2 = grad_enabled s.
Proof.
  rewrite phase_body_run.
  pose proof (run_phase_state dataloaders phase s) as Hst.
  destruct (after_batches_frame dataloaders phase s) as (_ & Hg & _).
  destruct (run_phase dataloaders phase s) as [[[l a]|e] s2]; simpl in *; subst s2; [|done].
  rewrite <- Hg. unfold after_end_phase. destruct phase; [done|]. by case_bool_decide.
Qed.

(** X1. The global gradient-tracking flag. [train_model] leaves
    [torch.is_grad_enabled()] as it found it, however many epochs it runs
    and whether it returns or raises: every [with torch.set_grad_enabled]
    block puts the old value back. *)
Theorem train_model_restores_grad_flag
    (dataloaders : Phase -> DataLoader) (n_epochs : nat) (s0 : St) :
  grad_enabled (train_model dataloaders n_epochs s0).2 = grad_enabled s0.
Proof.
  rewrite train_model_state.
  apply (after_epochs_invariant dataloaders (fun s => grad_enabled s = grad_enabled s0)).
  - done.
  - apply (epoch_invariant_of_phases dataloaders (fun s => grad_enabled s = grad_enabled s0)).
    intros epoch phase s Hs. by rewrite phase_body_grad_enabled.
Qed.






End RunFacts.

(** ** The metric series *)

Section SeriesFacts.
Context {T : Torch}.

Lemma scalar_steps_app (tag : string) (l1 l2 : list Event) :
  scalar_steps tag (l1 ++ l2) = scalar_steps tag l1 ++ scalar_steps tag l2.
Proof. apply omap_app. Qed.

Lemma scalar_steps_batches (tag : string) (phase : Phase) (n : nat) :
  scalar_steps tag (concat (replicate n (batch_events phase))) = [].
Proof.
  induction n as [|n IH]; [done|]. cbn [replicate concat].
  rewrite scalar_steps_app, IH. by destruct phase.
Qed.

Lemma scalar_steps_end_phase (tag : string) (epoch : nat) (l1 a1 l2 a2 : Qc) (s1 s2 : St) :
  scalar_steps tag (end_phase_events epoch Train l1 a1 s1)
  ++ scalar_steps tag (end_phase_events epoch Val l2 a2 s2)
  = if bool_decide (tag ∈ scalar_tags) then [epoch + 1] else [].
Proof.
  unfold end_phase_events, scalar_tags.
  rewrite scalar_steps_app.
  assert (Hsave : scalar_steps tag
    (if bool_decide (best_acc s2 < a2)%Qc
     then [EvTorchSave model_path (state_dict (model s2))] else []) = [])
    by (by case_bool_decide).
  rewrite Hsave. clear Hsave. unfold scalar_steps. simpl.
  case_bool_decide as Hin.
  - rewrite !elem_of_cons in Hin.
    destruct Hin as [->|[->|[->|[->|[->|Hin]]]]]; [done..|].
    by apply elem_of_nil in Hin.
  - rewrite !not_elem_of_cons in Hin.
    destruct Hin as (H1 & H2 & H3 & H4 & H5 & _).
    repeat case_decide; by subst.
Qed.

Lemma after_batches_events_only_batches
    (dataloaders : Phase -> DataLoader) (phase : Phase) (s : St) :
  events (after_batches dataloaders phase s)
  = events s ++ [if is_train phase then EvModelTrain else EvModelEval]
    ++ concat (replicate (length (phase_batches dataloaders phase s)) (batch_events phase)).
Proof. by destruct (after_batches_frame dataloaders phase s) as (_ & _ & _ & _ & _ & _ & ->). Qed.

(** The log of an epoch that returns, piece by piece. *)
Lemma epoch_body_Returned_events (dataloaders : Phase -> DataLoader) (epoch : nat) (s : St) :
  (epoch_body dataloaders epoch s).1 = Returned () ->
  exists n_train n_val tl ta vl va s1 s3,
    scheduler s1 = scheduler s /\
    events (epoch_body dataloaders epoch s).2
    = events s
      ++ ([EvModelTrain] ++ concat (replicate n_train (batch_events Train)))
      ++ end_phase_events epoch Train tl ta s1
      ++ ([EvModelEval] ++ concat (replicate n_val (batch_events Val)))
      ++ end_phase_events epoch Val vl va s3 /\
    n_train = length (phase_batches dataloaders Train s).
Proof.
  intros Hr.
  destruct (epoch_body_Returned dataloaders epoch s Hr)
    as (tl & ta & vl & va & s1 & s2 & s3 & H1 & -> & _ & H3 & ->).
  pose proof (run_phase_state dataloaders Train s) as Hs1. rewrite H1 in Hs1.
  pose proof (run_phase_state dataloaders Val (after_end_phase epoch Train tl ta s1)) as Hs3.
  rewrite H3 in Hs3. simpl in Hs1, Hs3.
  exists (length (phase_batches dataloaders Train s)),
    (length (phase_batches dataloaders Val (after_end_phase epoch Train tl ta s1))),
    tl, ta, vl, va, s1, s3.
  split.
  { subst s1. by destruct (after_batches_frame dataloaders Train s) as (-> & _). }
  split; [|done]. cbn [fst snd].
  assert (E1 : events s1 = events s ++ [EvModelTrain]
    ++ concat (replicate (length (phase_batches dataloaders Train s)) (batch_events Train))).
  { rewrite Hs1. apply after_batches_events_only_batches. }
  assert (E3 : events s3 = events (after_end_phase epoch Train tl ta s1) ++ [EvModelEval]
    ++ concat (replicate
         (length (phase_batches dataloaders Val (after_end_phase epoch Train tl ta s1)))
         (batch_events Val))).
  { rewrite Hs3. apply after_batches_events_only_batches. }
  rewrite after_end_phase_events, E3, after_end_phase_events, E1.
  rewrite <- !app_assoc. done.
Qed.

Lemma epoch_body_scalar_steps (dataloaders : Phase -> DataLoader) (epoch : nat) (s : St)
    (tag : string) :
  (epoch_body dataloaders epoch s).1 = Returned () ->
  scalar_steps tag (events (epoch_body dataloaders epoch s).2)
  = scalar_steps tag (events s)
    ++ (if bool_decide (tag ∈ scalar_tags) then [epoch + 1] else []).
Proof.
  intros Hr.
  destruct (epoch_body_Returned_events dataloaders epoch s Hr)
    as (nt & nv & tl & ta & vl & va & s1 & s3 & _ & -> & _).
  rewrite !scalar_steps_app, !scalar_steps_batches.
  rewrite <- (scalar_steps_end_phase tag epoch tl ta vl va s1 s3).
  change (scalar_steps tag [EvModelTrain]) with (@nil nat).
  change (scalar_steps tag [EvModelEval]) with (@nil nat).
  cbn [app]. done.
Qed.

(** X4. The metric series. After a run of [n] epochs that returns, each of
    the five tags has been given exactly one point per epoch, at the steps
    [1, 2, ..., n] in this order, and nothing has been logged under any
    other tag. *)
Theorem scalar_series_have_one_point_per_epoch
    (dataloaders : Phase -> DataLoader) (n_epochs : nat) (s0 : St) (tag : string) :
  (after_epochs dataloaders n_epochs s0).1 = Returned () ->
  scalar_steps tag (events (after_epochs dataloaders n_epochs s0).2)
  = scalar_steps tag (events s0)
    ++ (if bool_decide (tag ∈ scalar_tags) then seq 1 n_epochs else []).
Proof.
  induction n_epochs as [|k IH]; intros Hr.
  - simpl. case_bool_decide; by rewrite app_nil_r.
  - apply after_epochs_Returned_S in Hr as (Hk & Hr & HS).
    rewrite HS, (epoch_body_scalar_steps _ _ _ tag Hr), (IH Hk), <- app_assoc.
    f_equal. case_bool_decide; [|done].
    rewrite seq_S. by rewrite Nat.add_comm.
Qed.
End SeriesFacts.

(** ** Whole runs *)

Section WholeRunFacts.
Context {T : Torch}.

(** A projection of the log that grows by a known piece in every epoch that
    returns has grown by the pieces of all epochs after a run that returns. *)
Lemma after_epochs_omap {B : Type} (dataloaders : Phase -> DataLoader) (s0 : St)
    (g : Event -> option B) (per_epoch : nat -> St -> list B) :
  (forall epoch s,
     (epoch_body dataloaders epoch s).1 = Returned () ->
     omap g (events (epoch_body dataloaders epoch s).2)
     = omap g (events s) ++ per_epoch epoch s) ->
  forall n,
    (after_epochs dataloaders n s0).1 = Returned () ->
    omap g (events (after_epochs dataloaders n s0).2)
    = omap g (events s0)
      ++ concat (map (fun k => per_epoch k (after_epochs dataloaders k s0).2) (seq 0 n)).
Proof.
  intros Hstep n. induction n as [|k IH]; intros Hr.
  - simpl. by rewrite app_nil_r.
  - apply after_epochs_Returned_S in Hr as (Hk & Hr & HS).
    rewrite HS, (Hstep _ _ Hr), (IH Hk), <- app_assoc.
    f_equal. rewrite seq_S, map_app, concat_app. simpl. by rewrite app_nil_r.
Qed.

(** X5. The scheduler over a whole run. After [n] epochs that return, the
    scheduler has been stepped exactly [n] times, each step preceded by the
    logging of the rate the scheduler had when that epoch began. *)
Theorem scheduler_stepped_once_per_completed_epoch
    (dataloaders : Phase -> DataLoader) (n_epochs : nat) (s0 : St) :
  (after_epochs dataloaders n_epochs s0).1 = Returned () ->
  lr_and_steps (events (after_epochs dataloaders n_epochs s0).2)
  = lr_and_steps (events s0)
    ++ concat (map (fun k =>
         [inl (get_last_lr (scheduler (after_epochs dataloaders k s0).2)); inr ()])
         (seq 0 n_epochs)).
Proof.
  apply (after_epochs_omap dataloaders s0 _
           (fun _ s => [inl (get_last_lr (scheduler s)); inr ()])).
  intros epoch s Hr.
  destruct (epoch_body_Returned_events dataloaders epoch s Hr)
    as (nt & nv & tl & ta & vl & va & s1 & s3 & Hsch & -> & _).
  fold (lr_and_steps (events s)).
  change (omap ?g ?l) with (lr_and_steps l).
  rewrite !lr_and_steps_app, !lr_and_steps_batches.
  unfold end_phase_events. rewrite lr_and_steps_app, Hsch.
  assert (Hsave : lr_and_steps
    (if bool_decide (best_acc s3 < va)%Qc
     then [EvTorchSave model_path (state_dict (model s3))] else []) = [])
    by (by case_bool_decide).
  rewrite Hsave. simpl. done.
Qed.

(** X6. The mode of the model. Each epoch that returns switches the model to
    training mode once and to evaluation mode once, in this order; so after
    a run of at least one epoch that returns, the last switch was
    [model.eval()]: the model handed back is in evaluation mode. *)
Theorem model_is_left_in_eval_mode
    (dataloaders : Phase -> DataLoader) (n_epochs : nat) (s0 : St) :
  (after_epochs dataloaders n_epochs s0).1 = Returned () ->
  mode_switches (events (after_epochs dataloaders n_epochs s0).2)
  = mode_switches (events s0) ++ concat (replicate n_epochs [true; false]).
Proof.
  intros Hr. unfold mode_switches.
  rewrite (after_epochs_omap dataloaders s0 _ (fun _ _ => [true; false]) ); [|intros epoch s Hs|done].
  - f_equal. f_equal. clear Hr. generalize 0.
    induction n_epochs as [|k IH]; intros a; simpl; [done|]. by rewrite IH.
  - destruct (epoch_body_Returned_events dataloaders epoch s Hs)
      as (nt & nv & tl & ta & vl & va & s1 & s3 & _ & -> & _).
    rewrite !omap_app.
    assert (Hb : forall phase n,
      omap (fun e => match e with
                     | EvModelTrain => Some true | EvModelEval => Some false | _ => None
                     end) (concat (replicate n (batch_events phase))) = []).
    { intros phase n. induction n as [|n IH]; [done|]. cbn [replicate concat].
      rewrite omap_app, IH. by destruct phase. }
    rewrite !Hb. unfold end_phase_events. simpl.
    by case_bool_decide.
Qed.





End WholeRunFacts.

(** ** Batches and the end of a phase *)

Section BatchFacts.
Context {T : Torch}.

Lemma batches_aux_concat {A : Type} (b fuel : nat) (l : list A) :
  0 < b -> length l <= fuel -> concat (batches_aux fuel b l) = l.
Proof.
  intros Hb. revert l. induction fuel as [|fuel IH]; intros l Hl.
  - destruct l; simpl in *; [done|lia].
  - destruct l as [|x l]; [done|].
    cbn [batches_aux concat]. rewrite IH.
    + apply take_drop.
    + rewrite length_drop. simpl in *. lia.
Qed.

Lemma batches_aux_sizes {A : Type} (b fuel : nat) (l : list A) :
  0 < b -> Forall (fun d => 1 <= length d <= b) (batches_aux fuel b l).
Proof.
  intros Hb. revert l. induction fuel as [|fuel IH]; intros l; [done|].
  destruct l as [|x l]; [done|].
  cbn [batches_aux]. constructor; [|apply IH].
  rewrite length_take. simpl. lia.
Qed.

Lemma batches_aux_count {A : Type} (b fuel : nat) (l : list A) :
  0 < b -> length l <= fuel ->
  length l <= length (batches_aux fuel b l) * b /\
  length (batches_aux fuel b l) * b < length l + b.
Proof.
  intros Hb. revert l. induction fuel as [|fuel IH]; intros l Hl.
  - destruct l; simpl in *; lia.
  - destruct l as [|x l]; [simpl; lia|].
    cbn [batches_aux length].
    destruct (decide (S (length l) <= b)) as [Hle|Hgt].
    + rewrite (drop_ge (x :: l)) by (simpl; lia).
      replace (batches_aux fuel b (@nil A)) with (@nil (list A)) by (by destruct fuel).
      simpl. lia.
    + specialize (IH (drop b (x :: l))).
      rewrite length_drop in IH. cbn [length] in IH, Hl.
      destruct IH as [IH1 IH2]; [lia|].
      rewrite Nat.mul_succ_l. lia.
Qed.

(** X9. One pass over a loader. With a sampler that presents every sample
    once, the batches of a pass contain every sample of the split exactly
    once; no batch is empty and none has more than [batch_size] samples; and
    their number [k] is the size [n] of the split divided by the batch size
    and rounded up: [n <= k * batch_size < n + batch_size]. *)
Theorem pass_presents_each_sample_once `{!SamplerSpec T}
    (dataloaders : Phase -> DataLoader) (phase : Phase) (s : St) :
  let bs := phase_batches dataloaders phase s in
  let b := Pos.to_nat (TrainingLoop.batch_size (dataloaders phase)) in
  let n := length (dataset (dataloaders phase)) in
  concat bs ≡ₚ dataset (dataloaders phase) /\
  Forall (fun d => 1 <= length d <= b) bs /\
  n <= length bs * b /\ length bs * b < n + b.
Proof.
  simpl. unfold phase_batches, batches.
  pose proof (shuffle_perm (generator s) (dataset (dataloaders phase))) as Hp.
  split; [|split].
  - rewrite batches_aux_concat by (done || lia). done.
  - apply batches_aux_sizes. lia.
  - rewrite <- (Permutation_length Hp). apply batches_aux_count; [lia|done].
Qed.

Lemma optimizer_steps_app (l1 l2 : list Event) :
  optimizer_steps (l1 ++ l2) = optimizer_steps l1 + optimizer_steps l2.
Proof. unfold optimizer_steps. by rewrite omap_app, length_app. Qed.

Lemma optimizer_steps_batches (phase : Phase) (n : nat) :
  optimizer_steps (concat (replicate n (batch_events phase)))
  = if is_train phase then n else 0.
Proof.
  induction n as [|n IH]; [by destruct phase|]. cbn [replicate concat].
  rewrite optimizer_steps_app, IH. by destruct phase.
Qed.

(** X10. Optimizer steps. An epoch that returns has taken exactly one
    optimizer step per train batch, and none in its validation phase. *)
Theorem one_optimizer_step_per_train_batch
    (dataloaders : Phase -> DataLoader) (epoch : nat) (s : St) :
  (epoch_body dataloaders epoch s).1 = Returned () ->
  optimizer_steps (events (epoch_body dataloaders epoch s).2)
  = optimizer_steps (events s) + length (phase_batches dataloaders Train s).
Proof.
  intros Hr.
  destruct (epoch_body_Returned_events dataloaders epoch s Hr)
    as (nt & nv & tl & ta & vl & va & s1 & s3 & _ & -> & ->).
  rewrite !optimizer_steps_app, !optimizer_steps_batches.
  unfold end_phase_events. rewrite optimizer_steps_app.
  assert (Hsave : optimizer_steps
    (if bool_decide (best_acc s3 < va)%Qc
     then [EvTorchSave model_path (state_dict (model s3))] else []) = 0)
    by (by case_bool_decide).
  rewrite Hsave. cbn. lia.
Qed.

(** X11. How a phase ends. [run_phase] returns its two averages exactly when
    the split is non-empty and the pass yielded at least one batch. It
    raises [ZeroDivisionError] exactly when the split is empty (whatever the
    batches), and [AttributeError] exactly when the split is non-empty but
    the pass yielded no batch: [running_corrects] is then still the Python
    integer 0, which has no [double] method. *)
Theorem run_phase_outcome (dataloaders : Phase -> DataLoader) (phase : Phase) (s : St) :
  match (run_phase dataloaders phase s).1 with
  | Returned _ =>
      dataset (dataloaders phase) <> [] /\ phase_batches dataloaders phase s <> []
  | Raised ZeroDivisionError => dataset (dataloaders phase) = []
  | Raised AttributeError =>
      dataset (dataloaders phase) <> [] /\ phase_batches dataloaders phase s = []
  end.
Proof.
  rewrite run_phase_run. simpl.
  destruct (decide _) as [Hn|Hn]; simpl.
  - by apply length_zero_iff_nil.
  - assert (Hne : dataset (dataloaders phase) <> [])
      by (intros Heq; by rewrite Heq in Hn).
    unfold after_batches.
    destruct (phase_batches dataloaders phase s) as [|data bs] eqn:Hbs; simpl; [done|].
    pose proof (fold_batches_is_tensor phase (data :: bs)
                  (before_batches dataloaders phase s)) as Ht.
    simpl in Ht.
    destruct (running_corrects _); simpl in *; [|done].
    by specialize (Ht ltac:(done)).
Qed.
End BatchFacts.

(** ** [save_obj] *)

Section SaveObjFacts.
Context {T : Torch}.





End SaveObjFacts.

(** ** The adapter and the parameters to learn *)

Section AdapterMoreFacts.
Import ModelAdapter.
Variable Tensor : Type.
Variable current_model : bool -> Net Tensor.
Variable linear_init : nat -> nat -> Tensor * Tensor.

Lemma Forall2_freeze (l : list (Param Tensor)) :
  Forall2 (fun p p' => data p' = data p /\ (requires_grad p' = true -> requires_grad p = true))
    l (map freeze l).
Proof. induction l as [|p l IH]; simpl; constructor; done. Qed.

Lemma Forall2_same_param (l : list (Param Tensor)) :
  Forall2 (fun p p' => data p' = data p /\ (requires_grad p' = true -> requires_grad p = true))
    l l.
Proof. induction l as [|p l IH]; constructor; done. Qed.

(** X13. [set_parameter_requires_grad]. It keeps the number of parameters,
    their tensors and the widths of the final layer, and it never switches
    gradient tracking on: a parameter that tracks gradients afterwards did so
    before. With the flag unset it is a no-op, so it does not undo an earlier
    freeze; applied twice it does what it does once. *)
Theorem set_parameter_requires_grad_only_freezes (model : Net Tensor) (flag : bool) :
  let model' := set_parameter_requires_grad model flag in
  Forall2 (fun p p' => data p' = data p /\ (requires_grad p' = true -> requires_grad p = true))
    (parameters model) (parameters model') /\
  in_features (fc model') = in_features (fc model) /\
  out_features (fc model') = out_features (fc model) /\
  set_parameter_requires_grad model' flag = model' /\
  set_parameter_requires_grad (set_parameter_requires_grad model true) flag
  = set_parameter_requires_grad model true.
Proof.
  simpl. destruct flag; simpl.
  - split.
    { unfold parameters; simpl. apply Forall2_app; [apply Forall2_freeze|].
      repeat constructor; done. }
    split; [done|]. split; [done|].
    assert (Hidem : map freeze (map freeze (backbone model)) = map freeze (backbone model)).
    { rewrite map_map. done. }
    by rewrite Hidem.
  - split; [apply Forall2_same_param|]. done.
Qed.

Lemma filter_frozen_nil (l : list (Param Tensor)) :
  filter (fun param => requires_grad param = true) (map freeze l) = [].
Proof. induction l as [|p l IH]; [done|]. simpl. by rewrite filter_cons_False. Qed.

(** X14. The parameters to learn. In feature-extraction mode the list the
    script builds after [initialize_model] holds exactly the weight and the
    bias of the new final layer, whatever network was loaded; otherwise it
    holds every parameter: the loaded ones in front of the final layer, then
    those two. In both modes the new weight and bias are among the printed
    ones. *)
Theorem params_to_update_after_initialize_model (n_classes : nat) (use_pretrained : bool) :
  let loaded := current_model use_pretrained in
  let new_fc := nn_Linear linear_init (in_features (fc loaded)) n_classes in
  params_to_update
    (initialize_model current_model linear_init n_classes true use_pretrained) true
  = [weight new_fc; bias new_fc] /\
  params_to_update
    (initialize_model current_model linear_init n_classes false use_pretrained) false
  = backbone loaded ++ [weight new_fc; bias new_fc] /\
  params_printed
    (initialize_model current_model linear_init n_classes false use_pretrained)
  = filter (fun param => requires_grad param = true) (backbone loaded)
    ++ [weight new_fc; bias new_fc].
Proof.
  simpl. unfold params_to_update, params_printed, initialize_model, parameters. simpl.
  split; [|split].
  - rewrite filter_app, filter_frozen_nil. done.
  - done.
  - rewrite filter_app. done.
Qed.
End AdapterMoreFacts.

(** ** The script as a whole *)

Section ScriptMoreFacts.
Context {T : Torch}.

End ScriptMoreFacts.

(** ** The further results on the small instance *)

Lemma scalar_series_have_one_point_per_epoch_witness :
  (after_epochs scenario_loaders 2 (start 0)).1 = Returned () /\
  scalar_steps "valid acc" (events (after_epochs scenario_loaders 2 (start 0)).2)
  = scalar_steps "valid acc" (events (start 0))
    ++ (if bool_decide ("valid acc" ∈ scalar_tags) then seq 1 2 else []).
Proof.
  split; [vm_compute; reflexivity|].
  apply (scalar_series_have_one_point_per_epoch scenario_loaders 2 (start 0) "valid acc").
  vm_compute; reflexivity.
Defined.

Lemma scheduler_stepped_once_per_completed_epoch_witness :
  (after_epochs scenario_loaders 2 (start 0)).1 = Returned () /\
  lr_and_steps (events (after_epochs scenario_loaders 2 (start 0)).2)
  = lr_and_steps (events (start 0))
    ++ concat (map (fun k =>
         [inl (get_last_lr (scheduler (after_epochs scenario_loaders k (start 0)).2)); inr ()])
         (seq 0 2)).
Proof.
  split; [vm_compute; reflexivity|].
  apply (scheduler_stepped_once_per_completed_epoch scenario_loaders 2 (start 0)).
  vm_compute; reflexivity.
Defined.

Lemma model_is_left_in_eval_mode_witness :
  (after_epochs scenario_loaders 2 (start 0)).1 = Returned () /\
  mode_switches (events (after_epochs scenario_loaders 2 (start 0)).2)
  = mode_switches (events (start 0)) ++ concat (replicate 2 [true; false]).
Proof.
  split; [vm_compute; reflexivity|].
  apply (model_is_left_in_eval_mode scenario_loaders 2 (start 0)).
  vm_compute; reflexivity.
Defined.

Lemma pass_presents_each_sample_once_witness :
  SamplerSpec toy /\
  let bs := phase_batches scenario_loaders Train (start 0) in
  let b := Pos.to_nat (TrainingLoop.batch_size (scenario_loaders Train)) in
  let n := length (dataset (scenario_loaders Train)) in
  concat bs ≡ₚ dataset (scenario_loaders Train) /\
  Forall (fun d => 1 <= length d <= b) bs /\
  n <= length bs * b /\ length bs * b < n + b.
Proof.
  split; [exact toy_sampler|].
  exact (pass_presents_each_sample_once (SamplerSpec0 := toy_sampler)
           scenario_loaders Train (start 0)).
Defined.

Lemma one_optimizer_step_per_train_batch_witness :
  (epoch_body scenario_loaders 0 (start 0)).1 = Returned () /\
  optimizer_steps (events (epoch_body scenario_loaders 0 (start 0)).2)
  = optimizer_steps (events (start 0)) + length (phase_batches scenario_loaders Train (start 0)).
Proof.
  split; [vm_compute; reflexivity|].
  apply (one_optimizer_step_per_train_batch scenario_loaders 0 (start 0)).
  vm_compute; reflexivity.
Defined.

(** A pass that yields no batch over a non-empty split: the phase stops at
    [running_corrects.double()]. *)
Example pass_without_batches_raises_attribute_error :
  @dataset silent (silent_loaders Train) <> [] /\
  @phase_batches silent silent_loaders Train silent_start = [] /\
  (@run_phase silent silent_loaders Train silent_start).1 = Raised AttributeError /\
  (@train_model silent silent_loaders 1 silent_start).1 = Raised AttributeError.
Proof. repeat split; vm_compute; (reflexivity || discriminate). Qed.
